(** * clearoutspaces: the inbound-message pipeline, verified against its specification

    A shallow embedding of the Go packages [handlers], [database], [llm] and
    [models].  Go strings and byte slices are Rocq strings (sequences of
    bytes); the three SQL tables are finite maps and a list of rows; the
    network, the clock and the JSON decoders are inputs of the functions that
    use them. *)

From Stdlib Require Import ZArith Lia List String Ascii.
From stdpp Require Import base decidable option list gmap strings pretty.

Local Open Scope Z_scope.

(** ** Library layer: crypto/sha256, crypto/hmac, fmt's %x, strings, strconv *)

Module crypto.

(** [[]byte(s)]: the bytes of a string, as numbers below 256. *)
Definition bytes_of (s : string) : list Z :=
  map (fun a => Z.of_N (N_of_ascii a)) (list_ascii_of_string s).

Definition add32 (x y : Z) : Z := (x + y) mod 2 ^ 32.

Definition rotr (n x : Z) : Z :=
  Z.lor (Z.shiftr x n) (Z.shiftl x (32 - n) mod 2 ^ 32).

Definition Ch (x y z : Z) : Z :=
  Z.lxor (Z.land x y) (Z.land (Z.lxor x (2 ^ 32 - 1)) z).

Definition Maj (x y z : Z) : Z :=
  Z.lxor (Z.lxor (Z.land x y) (Z.land x z)) (Z.land y z).

Definition Sum0 (x : Z) : Z := Z.lxor (Z.lxor (rotr 2 x) (rotr 13 x)) (rotr 22 x).
Definition Sum1 (x : Z) : Z := Z.lxor (Z.lxor (rotr 6 x) (rotr 11 x)) (rotr 25 x).
Definition sig0 (x : Z) : Z := Z.lxor (Z.lxor (rotr 7 x) (rotr 18 x)) (Z.shiftr x 3).
Definition sig1 (x : Z) : Z := Z.lxor (Z.lxor (rotr 17 x) (rotr 19 x)) (Z.shiftr x 10).

(** Value of a hexadecimal digit (lower case), [None] for any other byte. *)
Definition hexval (a : ascii) : option Z :=
  let n := Z.of_N (N_of_ascii a) in
  if (48 <=? n) && (n <=? 57) then Some (n - 48)
  else if (97 <=? n) && (n <=? 102) then Some (n - 87)
  else None.

(** Reads a table of words written in hexadecimal and separated by one
    byte that is not a digit. *)
Fixpoint hexwords (s : string) (acc : Z) : list Z :=
  match s with
  | EmptyString => [acc]
  | String a s' =>
      match hexval a with
      | Some d => hexwords s' (16 * acc + d)
      | None => acc :: hexwords s' 0
      end
  end.

(** The round constants of FIPS 180-4, section 4.2.2. *)
Definition K : list Z := hexwords
  ("428a2f98 71374491 b5c0fbcf e9b5dba5 3956c25b 59f111f1 923f82a4 ab1c5ed5 " +:+
   "d807aa98 12835b01 243185be 550c7dc3 72be5d74 80deb1fe 9bdc06a7 c19bf174 " +:+
   "e49b69c1 efbe4786 0fc19dc6 240ca1cc 2de92c6f 4a7484aa 5cb0a9dc 76f988da " +:+
   "983e5152 a831c66d b00327c8 bf597fc7 c6e00bf3 d5a79147 06ca6351 14292967 " +:+
   "27b70a85 2e1b2138 4d2c6dfc 53380d13 650a7354 766a0abb 81c2c92e 92722c85 " +:+
   "a2bfe8a1 a81a664b c24b8b70 c76c51a3 d192e819 d6990624 f40e3585 106aa070 " +:+
   "19a4c116 1e376c08 2748774c 34b0bcb5 391c0cb3 4ed8aa4a 5b9cca4f 682e6ff3 " +:+
   "748f82ee 78a5636f 84c87814 8cc70208 90befffa a4506ceb bef9a3f7 c67178f2") 0.

(** The eight working variables; also the chaining value. *)
Record regs : Type := Regs { ra : Z; rb : Z; rc : Z; rd : Z; re : Z; rf : Z; rg : Z; rh : Z }.

Definition init : regs :=
  match hexwords "6a09e667 bb67ae85 3c6ef372 a54ff53a 510e527f 9b05688c 1f83d9ab 5be0cd19" 0 with
  | [a; b; c; d; e; f; g; h] => Regs a b c d e f g h
  | _ => Regs 0 0 0 0 0 0 0 0
  end.

Definition round (k w : Z) (r : regs) : regs :=
  let t1 := add32 (add32 (add32 (add32 (rh r) (Sum1 (re r))) (Ch (re r) (rf r) (rg r))) k) w in
  let t2 := add32 (Sum0 (ra r)) (Maj (ra r) (rb r) (rc r)) in
  Regs (add32 t1 t2) (ra r) (rb r) (rc r) (add32 (rd r) t1) (re r) (rf r) (rg r).

(** The message schedule is kept as a window of sixteen words:
    [win] holds W(t) .. W(t+15) and the word that enters is W(t+16). *)
Definition next_word (win : list Z) : Z :=
  add32 (add32 (add32 (sig1 (nth 14 win 0)) (nth 9 win 0)) (sig0 (nth 1 win 0))) (nth 0 win 0).

Fixpoint rounds (ks win : list Z) (r : regs) : regs :=
  match ks with
  | [] => r
  | k :: ks' => rounds ks' (tl win ++ [next_word win]) (round k (hd 0 win) r)
  end.

Definition block (h : regs) (ws : list Z) : regs :=
  let r := rounds K ws h in
  Regs (add32 (ra h) (ra r)) (add32 (rb h) (rb r)) (add32 (rc h) (rc r)) (add32 (rd h) (rd r))
       (add32 (re h) (re r)) (add32 (rf h) (rf r)) (add32 (rg h) (rg r)) (add32 (rh h) (rh r)).

(** Big-endian words of a byte sequence, four bytes each. *)
Fixpoint words (bs : list Z) : list Z :=
  match bs with
  | b0 :: b1 :: b2 :: b3 :: rest => (((b0 * 256 + b1) * 256 + b2) * 256 + b3) :: words rest
  | _ => []
  end.

Definition be32 (x : Z) : list Z :=
  [x / 2 ^ 24 mod 256; x / 2 ^ 16 mod 256; x / 2 ^ 8 mod 256; x mod 256].

Definition be64 (x : Z) : list Z := be32 (x / 2 ^ 32) ++ be32 (x mod 2 ^ 32).

(** Padding: one bit, zeros up to 56 modulo 64, the length in bits. *)
Definition pad (bs : list Z) : list Z :=
  let n := Z.of_nat (length bs) in
  bs ++ [128] ++ repeat 0 (Z.to_nat ((55 - n) mod 64)) ++ be64 (8 * n).

Fixpoint blocks (n : nat) (bs : list Z) (h : regs) : regs :=
  match n with
  | O => h
  | S n' => blocks n' (drop 64 bs) (block h (words (take 64 bs)))
  end.

(** [sha256.Sum256]. *)
Definition sum256 (bs : list Z) : list Z :=
  let p := pad bs in
  let h := blocks (length p / 64)%nat p init in
  be32 (ra h) ++ be32 (rb h) ++ be32 (rc h) ++ be32 (rd h) ++
  be32 (re h) ++ be32 (rf h) ++ be32 (rg h) ++ be32 (rh h).

(** [hmac.New(sha256.New, key)], [Write(msg)], [Sum(nil)]: a key longer
    than a block is hashed first, then padded with zeros to a block. *)
Definition hmac_sha256 (key msg : list Z) : list Z :=
  let k0 := if (64 <? Z.of_nat (length key)) then sum256 key else key in
  let k := k0 ++ repeat 0 (64 - length k0)%nat in
  sum256 (map (Z.lxor 92) k ++ sum256 (map (Z.lxor 54) k ++ msg)).

Definition hexdigit (d : Z) : ascii :=
  ascii_of_N (Z.to_N (if d <? 10 then 48 + d else 87 + d)).

(** [fmt.Sprintf("%x", bs)] for a byte slice: two lower-case digits a byte. *)
Fixpoint hex (bs : list Z) : string :=
  match bs with
  | [] => ""
  | b :: bs' => String (hexdigit (b / 16)) (String (hexdigit (b mod 16)) (hex bs'))
  end.

(** The keyed hash of [body] under [secret], in hexadecimal. *)
Definition mac_hex (secret body : string) : string :=
  hex (hmac_sha256 (bytes_of secret) (bytes_of body)).

End crypto.


Module strings.

(** [strings.TrimPrefix(s, prefix)]: [s] without the leading [prefix],
    or [s] itself when it does not start with it. *)
Fixpoint CutPrefix (s prefix : string) {struct prefix} : option string :=
  match prefix, s with
  | EmptyString, _ => Some s
  | String p prefix', String a s' => if Ascii.eqb a p then CutPrefix s' prefix' else None
  | String _ _, EmptyString => None
  end.

Definition TrimPrefix (s prefix : string) : string :=
  match CutPrefix s prefix with
  | Some rest => rest
  | None => s
  end.

(** Does [sub] occur in [s]?  ([strings.Contains], used by the tests.) *)
Fixpoint Contains (s sub : string) : bool :=
  match CutPrefix s sub with
  | Some _ => true
  | None => match s with
            | EmptyString => false
            | String _ s' => Contains s' sub
            end
  end.

End strings.

Module strconv.

Definition digit (a : ascii) : option Z :=
  let n := Z.of_N (N_of_ascii a) in
  if (48 <=? n) && (n <=? 57) then Some (n - 48) else None.

(** The digits of [ParseUint(s, 10, 64)]: every byte must be a decimal
    digit.  The value is accumulated without a bound; the caller checks
    the range, so that an overflow is a range error as in Go. *)
Fixpoint digits (s : string) (acc : Z) : option Z :=
  match s with
  | EmptyString => Some acc
  | String a s' =>
      match digit a with
      | Some d => digits s' (10 * acc + d)
      | None => None
      end
  end.

Definition ParseUint (s : string) : option Z :=
  match s with
  | EmptyString => None
  | _ => digits s 0
  end.

(** [strconv.ParseInt(s, 10, 64)]: [None] stands for any error (syntax or
    range), [Some n] for the value with a nil error. *)
Definition ParseInt (s : string) : option Z :=
  match s with
  | EmptyString => None
  | String c rest =>
      let neg := Ascii.eqb c "-" in
      let body := if Ascii.eqb c "+" || neg then rest else s in
      match ParseUint body with
      | None => None
      | Some un =>
          if negb neg && (2 ^ 63 <=? un) then None
          else if neg && (2 ^ 63 <? un) then None
          else Some (if neg then - un else un)
      end
  end.

End strconv.

(** Signed 64-bit arithmetic wraps around: the value of an [int64]
    expression whose mathematical result is [z]. *)
Definition wrap64 (z : Z) : Z := (z + 2 ^ 63) mod 2 ^ 64 - 2 ^ 63.

(** [hmac.Equal]: a constant-time comparison; equal lengths and equal bytes. *)
Definition hmac_Equal (mac1 mac2 : string) : bool := String.eqb mac1 mac2.

(** Go's [error]: [None] is nil. *)
Definition error : Type := option string.

(** encoding/json is modelled up to the textual rendering: a document is
    the JSON object it denotes, a list of named values.  The documents of
    this program hold strings and booleans only. *)
Inductive JValue : Type :=
| JString (s : string)
| JBool (b : bool).

Definition JSON : Type := list (string * JValue).

(** ** Package models *)

Module WAText.
Record t : Type := mk { Body : string }.
End WAText.

Module WAMessage.
(** [From_] and [Type_] are the fields [From] and [Type]. *)
Record t : Type := mk {
  From_ : string;            (* phone number, used as conversation ID *)
  ID : string;               (* wamid, used for idempotency *)
  Type_ : string;            (* "text", "image", etc. *)
  Text : option WAText.t     (* a pointer: nil when absent *)
}.
End WAMessage.

Module WAValue.
Record t : Type := mk { Messages : list WAMessage.t }.
End WAValue.

Module WAChange.
Record t : Type := mk { Value : WAValue.t }.
End WAChange.

Module WAEntry.
Record t : Type := mk { Changes : list WAChange.t }.
End WAEntry.

Module WAPayload.
Record t : Type := mk { Object : string; Entry : list WAEntry.t }.
End WAPayload.

(** A row of the messages table.  The column created_at is filled by the
    database and only orders the rows; the list of rows keeps that order. *)
Module Message.
Record t : Type := mk {
  ID : string;
  ConversationID : string;
  Role : string;             (* "user" | "assistant" | "system" *)
  Content : string
}.
End Message.

Module LLMMessage.
Record t : Type := mk { Role : string; Content : string }.
End LLMMessage.

Module ExtractedData.
Record t : Type := mk {
  Address : string;
  ElevatorAccess : string;
  Stairs : string;
  Inventory : string
}.

(** The zero value. *)
Definition zero : t := mk "" "" "" "".

(** [json.Marshal] of the struct: its tagged fields, in order. *)
Definition Marshal (d : t) : JSON :=
  [("address", JString (Address d));
   ("elevator_access", JString (ElevatorAccess d));
   ("stairs", JString (Stairs d));
   ("inventory", JString (Inventory d))].
End ExtractedData.

Module LLMResponse.
Record t : Type := mk {
  ReplyToUser : string;
  ExtractedData : ExtractedData.t;
  Action : string            (* "continue" | "handoff" | "schedule" *)
}.
End LLMResponse.

Module SlackUser.
Record t : Type := mk { ID : string; Username : string }.
End SlackUser.

Module SlackAction.
Record t : Type := mk { ActionID : string; Value : string }.
End SlackAction.

Module SlackInteractivePayload.
Record t : Type := mk {
  Type_ : string;
  User : SlackUser.t;
  Actions : list SlackAction.t
}.
End SlackInteractivePayload.

(** ** Package config *)

Module Config.
Record t : Type := mk {
  DBPath : string;
  MetaVerifyToken : string;
  MetaAppSecret : string;
  MetaAccessToken : string;
  MetaPhoneNumberID : string;
  DeepSeekAPIKey : string;
  SlackWebhookURL : string;
  SlackSigningSecret : string
}.
End Config.

(** ** Package database

    The SQLite store, by the meaning of its statements: [conversations] and
    [quote_data] are keyed by their primary key, [messages] is the list of
    rows in insertion order (the rowid order, which is also the created_at
    order for a clock that does not go back).  The functions of this module
    are the statements as SQLite runs them: one fails only when it violates
    a constraint of the schema (primary key, foreign key with
    [_foreign_keys=on], no row to scan).  A statement the driver cannot run
    is the matter of the module [fallible] below. *)

Module database.

Inductive Status : Type := ACTIVE | PAUSED.

#[global] Instance Status_eq_dec : EqDecision Status.
Proof. solve_decision. Defined.

(** The text of the status column. *)
Definition status_text (s : Status) : string :=
  match s with
  | ACTIVE => "ACTIVE"
  | PAUSED => "PAUSED"
  end.

Record DB : Type := mkDB {
  conversations : gmap string Status;
  messages : list Message.t;
  quote_data : gmap string JSON
}.

(** A message identifier is stored when some row carries it. *)
Definition stored (db : DB) (id : string) : Prop :=
  Exists (fun r => Message.ID r = id) (messages db).

(** [Init(":memory:")] after [migrate]: three empty tables. *)
Definition Init : DB := mkDB ∅ [] ∅.

(** INSERT INTO conversations(id) VALUES(?) ON CONFLICT(id) DO NOTHING;
    the status column defaults to 'ACTIVE'. *)
Definition UpsertConversation (db : DB) (phoneNumber : string) : DB * error :=
  match conversations db !! phoneNumber with
  | Some _ => (db, None)
  | None =>
      (mkDB (<[phoneNumber := ACTIVE]> (conversations db)) (messages db) (quote_data db), None)
  end.

(** SELECT status FROM conversations WHERE id = ?; scanning no row is
    the error sql.ErrNoRows. *)
Definition GetConversationStatus (db : DB) (phoneNumber : string) : string * error :=
  match conversations db !! phoneNumber with
  | Some s => (status_text s, None)
  | None => ("", Some "sql: no rows in result set")
  end.

(** UPDATE conversations SET status = 'PAUSED', updated_at = ? WHERE id = ?;
    an UPDATE that matches no row changes nothing and is no error. *)
Definition PauseConversation (db : DB) (phoneNumber : string) : DB * error :=
  (mkDB (alter (fun _ => PAUSED) phoneNumber (conversations db)) (messages db) (quote_data db),
   None).

(** SELECT COUNT(1) FROM messages WHERE id = ?. *)
Definition MessageExists (db : DB) (id : string) : bool * error :=
  let count := length (filter (fun m => Message.ID m = id) (messages db)) in
  (bool_decide (0 < count)%nat, None).

(** INSERT INTO messages(id, conversation_id, role, content) VALUES(?, ?, ?, ?);
    id is the primary key and conversation_id references conversations(id). *)
Definition InsertMessage (db : DB) (m : Message.t) : DB * error :=
  if bool_decide (stored db (Message.ID m))
  then (db, Some "UNIQUE constraint failed: messages.id")
  else match conversations db !! Message.ConversationID m with
       | None => (db, Some "FOREIGN KEY constraint failed")
       | Some _ => (mkDB (conversations db) (messages db ++ [m]) (quote_data db), None)
       end.

(** The query takes the conversation's rows newest first, at most [limit]
    of them (LIMIT ?: SQLite sets no bound when the limit is negative); the
    function then reverses them to chronological order. *)
Definition GetRecentMessages (db : DB) (conversationID : string) (limit : Z)
  : list Message.t * error :=
  let newestFirst :=
    reverse (filter (fun m => Message.ConversationID m = conversationID) (messages db)) in
  let rows := if limit <? 0 then newestFirst else take (Z.to_nat limit) newestFirst in
  (reverse rows, None).

(** INSERT INTO quote_data ... ON CONFLICT(conversation_id) DO UPDATE SET
    json_dump = excluded.json_dump; conversation_id references
    conversations(id). *)
Definition UpsertQuoteData (db : DB) (conversationID : string) (jsonDump : JSON)
  : DB * error :=
  match conversations db !! conversationID with
  | None => (db, Some "FOREIGN KEY constraint failed")
  | Some _ =>
      (mkDB (conversations db) (messages db) (<[conversationID := jsonDump]> (quote_data db)),
       None)
  end.

(** The four statements that write, as data, and a run of them. *)
Inductive Op : Type :=
| OpUpsertConversation (phoneNumber : string)
| OpPauseConversation (phoneNumber : string)
| OpInsertMessage (m : Message.t)
| OpUpsertQuoteData (conversationID : string) (jsonDump : JSON).

Definition exec (db : DB) (op : Op) : DB :=
  match op with
  | OpUpsertConversation p => fst (UpsertConversation db p)
  | OpPauseConversation p => fst (PauseConversation db p)
  | OpInsertMessage m => fst (InsertMessage db m)
  | OpUpsertQuoteData c j => fst (UpsertQuoteData db c j)
  end.

Definition run (ops : list Op) (db : DB) : DB := fold_left exec ops db.

End database.

(** ** The world outside the process *)

(** What one exchange with the model backend comes to, step by step as
    [llm.Call] goes through it. *)
Inductive Exchange : Type :=
| MarshalFailed (e : string)        (* json.Marshal of the request *)
| NewRequestFailed (e : string)     (* http.NewRequestWithContext *)
| DoFailed (e : string)             (* httpClient.Do: transport failure, timeout *)
| Responded (StatusCode : Z) (decoded : string + list string).
    (* a response: its status, and its body decoded into deepSeekResponse,
       [inl e] a decoding error, [inr cs] the contents of the choices *)

(** The library decoders, as functions of the bytes they read. *)
Record Codec : Type := mkCodec {
  UnmarshalWAPayload : string -> option WAPayload.t;
  UnmarshalLLMResponse : string -> string + LLMResponse.t;
  ParseQuery : string -> option (gmap string (list string));
  UnmarshalSlackPayload : string -> option SlackInteractivePayload.t
}.

(** What the environment answers while one message is handled. *)
Record Env : Type := mkEnv {
  SystemPrompt : string;                               (* llm.SystemPrompt() *)
  deepSeek : string -> list LLMMessage.t -> Exchange;  (* by API key and messages *)
  UnixNano : Z;                                        (* time.Now().UnixNano() *)
  slackWebhook : error                                 (* outcome of the handoff post *)
}.

(** What the process does to the outside, in order. *)
Inductive Event : Type :=
| SendWhatsApp (to body : string)
| CallLLM (apiKey : string) (msgs : list LLMMessage.t)
| SlackHandoff (phone : string) (data : ExtractedData.t).

Record World : Type := mkWorld {
  store : database.DB;
  sent : list Event
}.

Definition emit (w : World) (e : Event) : World := mkWorld (store w) (sent w ++ [e]).

Definition with_store (w : World) (db : database.DB) : World := mkWorld db (sent w).

(** ** Package llm *)

Module llm.

Definition validAction (a : string) : bool :=
  String.eqb a "continue" || String.eqb a "handoff" || String.eqb a "schedule".

(** fallback returns a safe default response used when the LLM call fails
    entirely; the extracted data are the zero value. *)
Definition fallback : LLMResponse.t :=
  LLMResponse.mk
    "Sorry, I ran into a technical issue. Our team will follow up with you shortly."
    ExtractedData.zero
    "continue".

(** The messages of the request: the system prompt, then the history. *)
Definition request (sys : string) (history : list Message.t) : list LLMMessage.t :=
  LLMMessage.mk "system" sys
    :: map (fun m => LLMMessage.mk (Message.Role m) (Message.Content m)) history.

(** [Call]: the reply is a pointer, [None] is nil. *)
Definition Call (codec : Codec) (env : Env) (apiKey : string) (history : list Message.t)
  : option LLMResponse.t * error :=
  let msgs := request (SystemPrompt env) history in
  match deepSeek env apiKey msgs with
  | MarshalFailed e => (Some fallback, Some ("llm: marshal request: " +:+ e))
  | NewRequestFailed e => (Some fallback, Some ("llm: create request: " +:+ e))
  | DoFailed e => (Some fallback, Some ("llm: http call failed: " +:+ e))
  | Responded StatusCode decoded =>
      if negb (StatusCode =? 200)
      then (Some fallback, Some ("llm: unexpected status " +:+ pretty StatusCode))
      else match decoded with
           | inl e => (Some fallback, Some ("llm: decode response: " +:+ e))
           | inr [] => (Some fallback, Some "llm: empty choices")
           | inr (content :: _) =>
               match UnmarshalLLMResponse codec content with
               | inl e => (Some fallback, Some ("llm: parse JSON content: " +:+ e))
               | inr llmResp =>
                   (* Validate required fields. *)
                   let reply :=
                     if String.eqb (LLMResponse.ReplyToUser llmResp) ""
                     then "I'm looking into that, one moment!"
                     else LLMResponse.ReplyToUser llmResp in
                   let action :=
                     if negb (validAction (LLMResponse.Action llmResp))
                     then "continue"
                     else LLMResponse.Action llmResp in
                   (Some (LLMResponse.mk reply (LLMResponse.ExtractedData llmResp) action),
                    None)
               end
           end
  end.

(** The exchange a call is about: the backend's answer to its request. *)
Definition exchange (env : Env) (apiKey : string) (history : list Message.t) : Exchange :=
  deepSeek env apiKey (request (SystemPrompt env) history).

Definition holdingReply : string := "I'm looking into that, one moment!".

(** What the validation of required fields makes of a parsed reply. *)
Definition validated (r : LLMResponse.t) : LLMResponse.t :=
  LLMResponse.mk
    (if String.eqb (LLMResponse.ReplyToUser r) "" then holdingReply
     else LLMResponse.ReplyToUser r)
    (LLMResponse.ExtractedData r)
    (if validAction (LLMResponse.Action r) then LLMResponse.Action r else "continue").

End llm.

(** ** Package handlers *)

Module handlers.

Import database.

(** *** net/http: what a handler writes to its ResponseWriter *)

Inductive Chunk : Type :=
| Text (s : string)
| Json (v : JSON).

Record ResponseWriter : Type := mkResponse {
  Header : gmap string string;
  Code : option Z;                 (* the status sent, once the header is out *)
  Written : list Chunk
}.

Definition NewRecorder : ResponseWriter := mkResponse ∅ None [].

Definition Header_Set (w : ResponseWriter) (k v : string) : ResponseWriter :=
  mkResponse (<[k := v]> (Header w)) (Code w) (Written w).

(** The first call sends the header; a later one is ignored. *)
Definition WriteHeader (w : ResponseWriter) (statusCode : Z) : ResponseWriter :=
  match Code w with
  | None => mkResponse (Header w) (Some statusCode) (Written w)
  | Some _ => w
  end.

(** Writing a body before any header sends 200 first. *)
Definition Write (w : ResponseWriter) (c : Chunk) : ResponseWriter :=
  let w := WriteHeader w 200 in
  mkResponse (Header w) (Code w) (Written w ++ [c]).

Definition newline : string := String (ascii_of_nat 10) EmptyString.

(** [http.Error]: two headers, the status, the message on a line. *)
Definition http_Error (w : ResponseWriter) (err : string) (code : Z) : ResponseWriter :=
  let w := Header_Set w "Content-Type" "text/plain; charset=utf-8" in
  let w := Header_Set w "X-Content-Type-Options" "nosniff" in
  Write (WriteHeader w code) (Text (err +:+ newline)).

(** The body and the headers of a request; [ReadAll] is what
    [io.ReadAll(r.Body)] returns, [None] an error. *)
Record Request : Type := mkRequest {
  ReadAll : option string;
  ReqHeader : gmap string string
}.

(** [r.Header.Get(k)]: the empty string when the header is absent. *)
Definition Header_Get (r : Request) (k : string) : string := default "" (ReqHeader r !! k).

(** [url.Values.Get]: the first value of the key, or the empty string. *)
Definition Values_Get (v : gmap string (list string)) (k : string) : string :=
  match v !! k with
  | Some (x :: _) => x
  | _ => ""
  end.

(** *** whatsapp.go *)

Definition verifyMetaSignature (secret body header : string) : bool :=
  if String.eqb header "" then false
  else
    let expected := header in
    let expected := strings.TrimPrefix expected "sha256=" in
    let computed := crypto.mac_hex secret body in
    hmac_Equal computed expected.

(** The call [sendWhatsApp(cfg, to, body)]: one POST to the send API,
    whose outcome is only logged. *)
Definition sendWhatsApp (cfg : Config.t) (w : World) (to body : string) : World :=
  emit w (SendWhatsApp to body).

(** The call [sendSlackHandoff(cfg, phone, llmResp)] and its error. *)
Definition sendSlackHandoff (cfg : Config.t) (env : Env) (w : World) (phone : string)
    (llmResp : LLMResponse.t) : World * error :=
  let data := LLMResponse.ExtractedData llmResp in
  (emit w (SlackHandoff phone data), slackWebhook env).

Definition unsupportedReply : string :=
  "Sorry, I can only handle text messages right now.".

Definition pausedReply : string :=
  "Our team is handling your request directly. We'll be in touch shortly!".

Definition bookingSuffix : string :=
  newline +:+ newline +:+
  "You can pick a time for an on-site assessment here: " +:+
  "https://bookings.clearoutspaces.ca/clearoutspaces/assessment".

(** [fmt.Sprintf("assistant-%s-%d", phone, time.Now().UnixNano())]. *)
Definition assistantMsgID (phone : string) (nano : Z) : string :=
  "assistant-" +:+ phone +:+ "-" +:+ pretty nano.

(** The text of a message the pipeline handles: [None] when
    [msg.Type != "text" || msg.Text == nil]. *)
Definition textOf (msg : WAMessage.t) : option WAText.t :=
  if String.eqb (WAMessage.Type_ msg) "text" then WAMessage.Text msg else None.

(** The per-conversation lock is taken after the type check and released
    on every return; one call at a time runs here, so it changes nothing. *)
Definition handleMessage (cfg : Config.t) (codec : Codec) (env : Env) (w : World)
    (msg : WAMessage.t) : World :=
  match textOf msg with
  | None =>
      (* Only handle text messages. *)
      sendWhatsApp cfg w (WAMessage.From_ msg) unsupportedReply
  | Some text =>
      let phone := WAMessage.From_ msg in
      (* Idempotency check. *)
      match MessageExists (store w) (WAMessage.ID msg) with
      | (_, Some _) => w
      | (true, None) => w
      | (false, None) =>
      (* Upsert conversation. *)
      match UpsertConversation (store w) phone with
      | (db1, Some _) => with_store w db1
      | (db1, None) =>
      (* Check if conversation is PAUSED (staff has taken over). *)
      match GetConversationStatus db1 phone with
      | (_, Some _) => with_store w db1
      | (status, None) =>
      let inbound := Message.mk (WAMessage.ID msg) phone "user" (WAText.Body text) in
      if String.eqb status "PAUSED" then
        (* Still save the message for audit trail. *)
        let '(db2, _) := InsertMessage db1 inbound in
        sendWhatsApp cfg (with_store w db2) phone pausedReply
      else
      (* Save inbound user message. *)
      match InsertMessage db1 inbound with
      | (db2, Some _) => with_store w db2
      | (db2, None) =>
      (* Load conversation history (last 20 messages). *)
      match GetRecentMessages db2 phone 20 with
      | (_, Some _) => with_store w db2
      | (history, None) =>
      (* Call DeepSeek. *)
      let w3 := emit (with_store w db2)
                     (CallLLM (Config.DeepSeekAPIKey cfg)
                              (llm.request (SystemPrompt env) history)) in
      match llm.Call codec env (Config.DeepSeekAPIKey cfg) history with
      | (None, _) => w3      (* a nil reply would panic at the first field read *)
      | (Some llmResp, _) =>
      (* Save assistant reply. *)
      let id := assistantMsgID phone (UnixNano env) in
      let '(db4, _) :=
        InsertMessage (store w3)
                      (Message.mk id phone "assistant" (LLMResponse.ReplyToUser llmResp)) in
      (* Save extracted quote data. *)
      let dataJSON := ExtractedData.Marshal (LLMResponse.ExtractedData llmResp) in
      let '(db5, _) := UpsertQuoteData db4 phone dataJSON in
      let w5 := with_store w3 db5 in
      (* Execute action. *)
      if String.eqb (LLMResponse.Action llmResp) "handoff" then
        let '(w6, _) := sendSlackHandoff cfg env w5 phone llmResp in
        sendWhatsApp cfg w6 phone (LLMResponse.ReplyToUser llmResp)
      else if String.eqb (LLMResponse.Action llmResp) "schedule" then
        let bookingMsg := LLMResponse.ReplyToUser llmResp +:+ bookingSuffix in
        sendWhatsApp cfg w5 phone bookingMsg
      else
        sendWhatsApp cfg w5 phone (LLMResponse.ReplyToUser llmResp)
      end end end end end end
  end.

(** One handler call: the environment of the call is the next of the
    stream, counted by the first component. *)
Definition handleNext (cfg : Config.t) (codec : Codec) (envs : nat -> Env)
    (st : nat * World) (msg : WAMessage.t) : nat * World :=
  (S (fst st), handleMessage cfg codec (envs (fst st)) (snd st) msg).

Definition processInbound (cfg : Config.t) (codec : Codec) (envs : nat -> Env) (w : World)
    (rawBody : string) : World :=
  match UnmarshalWAPayload codec rawBody with
  | None => w
  | Some payload =>
      (* Guard against status/delivery receipt webhooks (no messages array). *)
      match WAPayload.Entry payload with
      | [] => w
      | entry0 :: _ =>
      match WAEntry.Changes entry0 with
      | [] => w
      | change0 :: _ =>
      match WAValue.Messages (WAChange.Value change0) with
      | [] => w
      | _ :: _ =>
          (* Process all messages in the payload (Meta can batch multiple). *)
          snd (fold_left
                 (fun st entry =>
                    fold_left
                      (fun st change =>
                         fold_left (handleNext cfg codec envs)
                                   (WAValue.Messages (WAChange.Value change)) st)
                      (WAEntry.Changes entry) st)
                 (WAPayload.Entry payload) (O, w))
      end end end
  end.

(** POST /whatsapp/webhook.  The processing runs after the response is
    written; here it runs to its end. *)
Definition HandleWhatsAppMessage (cfg : Config.t) (codec : Codec) (envs : nat -> Env)
    (w : World) (r : Request) : ResponseWriter * World :=
  match ReadAll r with
  | None => (http_Error NewRecorder "bad request" 400, w)
  | Some rawBody =>
      if negb (verifyMetaSignature (Config.MetaAppSecret cfg) rawBody
                                   (Header_Get r "X-Hub-Signature-256"))
      then (http_Error NewRecorder "forbidden" 403, w)
      else (WriteHeader NewRecorder 200, processInbound cfg codec envs w rawBody)
  end.

(** *** slack.go *)

(** [now] is [time.Now().Unix()]. *)
Definition verifySlackSignature (now : Z) (signingSecret timestamp body signature : string)
  : bool :=
  if String.eqb timestamp "" || String.eqb signature "" then false
  else
    (* Reject requests older than 5 minutes (replay attack prevention). *)
    match strconv.ParseInt timestamp with
    | None => false
    | Some ts =>
        if wrap64 (now - ts) >? 300 then false
        else
          let baseString := "v0:" +:+ timestamp +:+ ":" +:+ body in
          let computed := "v0=" +:+ crypto.mac_hex signingSecret baseString in
          hmac_Equal computed signature
    end.

Definition slackReply (text : string) : Chunk :=
  Json [("replace_original", JBool true); ("text", JString text)].

Definition notFoundText : string := "⚠️ Conversation not found.".
Definition alreadyPausedText : string := "ℹ️ Chat was already paused.".
Definition pausedByText (username : string) : string :=
  "✅ Chat paused. " +:+ username +:+ " has taken over the conversation.".

(** POST /slack/interactive: the take-over button. *)
Definition HandleSlackInteractive (cfg : Config.t) (codec : Codec) (now : Z) (db : DB)
    (r : Request) : ResponseWriter * DB :=
  let w := NewRecorder in
  (* 1. Read raw body first. *)
  match ReadAll r with
  | None => (http_Error w "bad request" 400, db)
  | Some rawBody =>
  (* 2. Verify Slack signature. *)
  let timestamp := Header_Get r "X-Slack-Request-Timestamp" in
  let signature := Header_Get r "X-Slack-Signature" in
  if negb (verifySlackSignature now (Config.SlackSigningSecret cfg) timestamp rawBody signature)
  then (http_Error w "forbidden" 403, db)
  else
  (* 3. Decode form-encoded body and extract the JSON payload parameter. *)
  match ParseQuery codec rawBody with
  | None => (http_Error w "bad request" 400, db)
  | Some formVals =>
  let payloadJSON := Values_Get formVals "payload" in
  if String.eqb payloadJSON "" then (http_Error w "missing payload" 400, db)
  else
  match UnmarshalSlackPayload codec payloadJSON with
  | None => (http_Error w "bad request" 400, db)
  | Some slackPayload =>
  match SlackInteractivePayload.Actions slackPayload with
  | [] => (http_Error w "no actions" 400, db)
  | action :: _ =>
  if negb (String.eqb (SlackAction.ActionID action) "take_over_chat")
  then (WriteHeader w 200, db)
  else
  let phone := SlackAction.Value action in
  (* 4. Validate phone exists in DB before acting. *)
  match GetConversationStatus db phone with
  | (_, Some _) =>
      (Write (Header_Set w "Content-Type" "application/json") (slackReply notFoundText), db)
  | (status, None) =>
  if String.eqb status "PAUSED"
  then (Write (Header_Set w "Content-Type" "application/json") (slackReply alreadyPausedText),
        db)
  else
  (* 5. Pause the conversation. *)
  match PauseConversation db phone with
  | (db', Some _) => (http_Error w "internal error" 500, db')
  | (db', None) =>
  (* 6. Respond to Slack within 3 seconds. *)
  (Write (Header_Set w "Content-Type" "application/json")
         (slackReply (pausedByText (SlackUser.Username (SlackInteractivePayload.User slackPayload)))),
   db')
  end end end end end end.

(** *** The signatures the senders compute (the test helpers) *)

Definition metaSignature (secret body : string) : string :=
  "sha256=" +:+ crypto.mac_hex secret body.

Definition slackSignature (secret timestamp body : string) : string :=
  let base := "v0:" +:+ timestamp +:+ ":" +:+ body in
  "v0=" +:+ crypto.mac_hex secret base.

(** *** Reading a payload *)

(** Every message of a payload, in the order of the three loops. *)
Definition allMessages (payload : WAPayload.t) : list WAMessage.t :=
  flat_map (fun entry =>
              flat_map (fun change => WAValue.Messages (WAChange.Value change))
                       (WAEntry.Changes entry))
           (WAPayload.Entry payload).

(** The handler called on each message of a list, one after the other. *)
Definition handleEach (cfg : Config.t) (codec : Codec) (envs : nat -> Env) (w : World)
    (msgs : list WAMessage.t) : World :=
  snd (fold_left (handleNext cfg codec envs) msgs (O, w)).

End handlers.

(** ** The store behind a driver that may fail

    Every method of [database.DB] sends one statement through [db.conn]
    and returns the driver's error with its result.  In [database] the
    statement runs.  Here the driver may refuse it instead (a locked or
    unreadable file, a closed connection): the method then returns that
    error with the zero value of its result and, one statement being
    atomic, the store is as it was.  The handlers are the ones of
    [handlers], with each statement put to the driver. *)

Module fallible.

Import database handlers.

(** What the driver reports at the n-th statement a handler run sends,
    counted from 0: [None] when it runs the statement. *)
Record Driver : Type := mkDriver { fault : nat -> error }.

Definition working : Driver := mkDriver (fun _ => None).

(** *** The methods of [database.DB] *)

Definition UpsertConversation (failure : error) (db : DB) (phoneNumber : string)
  : DB * error :=
  match failure with
  | Some err => (db, Some err)
  | None => database.UpsertConversation db phoneNumber
  end.

Definition GetConversationStatus (failure : error) (db : DB) (phoneNumber : string)
  : string * error :=
  match failure with
  | Some err => ("", Some err)
  | None => database.GetConversationStatus db phoneNumber
  end.

Definition PauseConversation (failure : error) (db : DB) (phoneNumber : string)
  : DB * error :=
  match failure with
  | Some err => (db, Some err)
  | None => database.PauseConversation db phoneNumber
  end.

Definition MessageExists (failure : error) (db : DB) (id : string) : bool * error :=
  match failure with
  | Some err => (false, Some err)
  | None => database.MessageExists db id
  end.

Definition InsertMessage (failure : error) (db : DB) (m : Message.t) : DB * error :=
  match failure with
  | Some err => (db, Some err)
  | None => database.InsertMessage db m
  end.

Definition GetRecentMessages (failure : error) (db : DB) (conversationID : string)
    (limit : Z) : list Message.t * error :=
  match failure with
  | Some err => ([], Some err)
  | None => database.GetRecentMessages db conversationID limit
  end.

Definition UpsertQuoteData (failure : error) (db : DB) (conversationID : string)
    (jsonDump : JSON) : DB * error :=
  match failure with
  | Some err => (db, Some err)
  | None => database.UpsertQuoteData db conversationID jsonDump
  end.

(** *** whatsapp.go *)

(** The statements of one run, in order: the idempotency check (0), the
    upsert of the conversation (1), the read of its state (2), the insert
    of the inbound message (3), the read of the history (4), the insert of
    the reply (5) and the upsert of the extracted data (6). *)
Definition handleMessage (cfg : Config.t) (codec : Codec) (env : Env) (driver : Driver)
    (w : World) (msg : WAMessage.t) : World :=
  match textOf msg with
  | None =>
      (* Only handle text messages. *)
      sendWhatsApp cfg w (WAMessage.From_ msg) unsupportedReply
  | Some text =>
      let phone := WAMessage.From_ msg in
      (* Idempotency check. *)
      match MessageExists (fault driver 0) (store w) (WAMessage.ID msg) with
      | (_, Some _) => w
      | (true, None) => w
      | (false, None) =>
      (* Upsert conversation. *)
      match UpsertConversation (fault driver 1) (store w) phone with
      | (db1, Some _) => with_store w db1
      | (db1, None) =>
      (* Check if conversation is PAUSED (staff has taken over). *)
      match GetConversationStatus (fault driver 2) db1 phone with
      | (_, Some _) => with_store w db1
      | (status, None) =>
      let inbound := Message.mk (WAMessage.ID msg) phone "user" (WAText.Body text) in
      if String.eqb status "PAUSED" then
        (* Still save the message for audit trail. *)
        let '(db2, _) := InsertMessage (fault driver 3) db1 inbound in
        sendWhatsApp cfg (with_store w db2) phone pausedReply
      else
      (* Save inbound user message. *)
      match InsertMessage (fault driver 3) db1 inbound with
      | (db2, Some _) => with_store w db2
      | (db2, None) =>
      (* Load conversation history (last 20 messages). *)
      match GetRecentMessages (fault driver 4) db2 phone 20 with
      | (_, Some _) => with_store w db2
      | (history, None) =>
      (* Call DeepSeek. *)
      let w3 := emit (with_store w db2)
                     (CallLLM (Config.DeepSeekAPIKey cfg)
                              (llm.request (SystemPrompt env) history)) in
      match llm.Call codec env (Config.DeepSeekAPIKey cfg) history with
      | (None, _) => w3      (* a nil reply would panic at the first field read *)
      | (Some llmResp, _) =>
      (* Save assistant reply. *)
      let id := assistantMsgID phone (UnixNano env) in
      let '(db4, _) :=
        InsertMessage (fault driver 5) (store w3)
                      (Message.mk id phone "assistant" (LLMResponse.ReplyToUser llmResp)) in
      (* Save extracted quote data. *)
      let dataJSON := ExtractedData.Marshal (LLMResponse.ExtractedData llmResp) in
      let '(db5, _) := UpsertQuoteData (fault driver 6) db4 phone dataJSON in
      let w5 := with_store w3 db5 in
      (* Execute action. *)
      if String.eqb (LLMResponse.Action llmResp) "handoff" then
        let '(w6, _) := sendSlackHandoff cfg env w5 phone llmResp in
        sendWhatsApp cfg w6 phone (LLMResponse.ReplyToUser llmResp)
      else if String.eqb (LLMResponse.Action llmResp) "schedule" then
        let bookingMsg := LLMResponse.ReplyToUser llmResp +:+ bookingSuffix in
        sendWhatsApp cfg w5 phone bookingMsg
      else
        sendWhatsApp cfg w5 phone (LLMResponse.ReplyToUser llmResp)
      end end end end end end
  end.

(** *** slack.go *)

(** POST /slack/interactive: the take-over button.  The statements of one
    run: the read of the state (0) and the pause (1). *)
Definition HandleSlackInteractive (cfg : Config.t) (codec : Codec) (now : Z)
    (driver : Driver) (db : DB) (r : Request) : ResponseWriter * DB :=
  let w := NewRecorder in
  (* 1. Read raw body first. *)
  match ReadAll r with
  | None => (http_Error w "bad request" 400, db)
  | Some rawBody =>
  (* 2. Verify Slack signature. *)
  let timestamp := Header_Get r "X-Slack-Request-Timestamp" in
  let signature := Header_Get r "X-Slack-Signature" in
  if negb (verifySlackSignature now (Config.SlackSigningSecret cfg) timestamp rawBody signature)
  then (http_Error w "forbidden" 403, db)
  else
  (* 3. Decode form-encoded body and extract the JSON payload parameter. *)
  match ParseQuery codec rawBody with
  | None => (http_Error w "bad request" 400, db)
  | Some formVals =>
  let payloadJSON := Values_Get formVals "payload" in
  if String.eqb payloadJSON "" then (http_Error w "missing payload" 400, db)
  else
  match UnmarshalSlackPayload codec payloadJSON with
  | None => (http_Error w "bad request" 400, db)
  | Some slackPayload =>
  match SlackInteractivePayload.Actions slackPayload with
  | [] => (http_Error w "no actions" 400, db)
  | action :: _ =>
  if negb (String.eqb (SlackAction.ActionID action) "take_over_chat")
  then (WriteHeader w 200, db)
  else
  let phone := SlackAction.Value action in
  (* 4. Validate phone exists in DB before acting. *)
  match GetConversationStatus (fault driver 0) db phone with
  | (_, Some _) =>
      (Write (Header_Set w "Content-Type" "application/json") (slackReply notFoundText), db)
  | (status, None) =>
  if String.eqb status "PAUSED"
  then (Write (Header_Set w "Content-Type" "application/json") (slackReply alreadyPausedText),
        db)
  else
  (* 5. Pause the conversation. *)
  match PauseConversation (fault driver 1) db phone with
  | (db', Some _) => (http_Error w "internal error" 500, db')
  | (db', None) =>
  (* 6. Respond to Slack within 3 seconds. *)
  (Write (Header_Set w "Content-Type" "application/json")
         (slackReply (pausedByText (SlackUser.Username (SlackInteractivePayload.User slackPayload)))),
   db')
  end end end end end end.

(** The condition under which a run of [handleMessage] sends nothing:
    a text message that is a duplicate, or whose run the driver stops at
    one of the statements the handler returns on. *)
Definition silent (driver : Driver) (w : World) (msg : WAMessage.t) : Prop :=
  is_Some (textOf msg) /\
  (is_Some (fault driver 0) \/
   stored (store w) (WAMessage.ID msg) \/
   is_Some (fault driver 1) \/
   is_Some (fault driver 2) \/
   (conversations (store w) !! WAMessage.From_ msg <> Some PAUSED /\
    (is_Some (fault driver 3) \/ is_Some (fault driver 4)))).

End fallible.

(** ** Fixtures: the values the tests of the repository use

    The JSON texts are written without their double quotes; a fixture
    decoder reads the one text it is made for and rejects any other. *)

Module fixtures.

(** [testConfig()]. *)
Definition testConfig : Config.t :=
  Config.mk ":memory:" "test-verify-token" "test-app-secret" "test-access-token"
            "123456789" "test-deepseek-key" "https://hooks.slack.com/test"
            "test-slack-secret".

Definition phone : string := "14165551234".

(** Decoders that reject every input. *)
Definition noCodec : Codec :=
  mkCodec (fun _ => None) (fun _ => inl "unexpected end of JSON input")
          (fun _ => None) (fun _ => None).

(** A model backend that cannot be reached. *)
Definition backendDown : Env :=
  mkEnv "You are a test assistant." (fun _ _ => DoFailed "context deadline exceeded")
        1700000000000000000 None.


(** A driver that finds the database locked at one statement of the run. *)
Definition lockedAt (n : nat) : fallible.Driver :=
  fallible.mkDriver (fun k => if Nat.eqb k n then Some "database is locked" else None).

(** The fake backend of TestHandleWhatsAppMessage_ValidSignature_Returns200:
    the content of its one choice, and the reply that content denotes. *)
Definition couchContent : string :=
  "{reply_to_user:Hi! What's the address?,extracted_data:{address:unknown," +:+
  "elevator_access:unknown,stairs:unknown,inventory:1 couch},action:continue}".

Definition couchReply : LLMResponse.t :=
  LLMResponse.mk "Hi! What's the address?"
                 (ExtractedData.mk "unknown" "unknown" "unknown" "1 couch")
                 "continue".

Definition replyCodec : Codec :=
  mkCodec (fun _ => None)
          (fun content => if String.eqb content couchContent then inr couchReply
                          else inl "invalid character")
          (fun _ => None) (fun _ => None).

Definition backendUp : Env :=
  mkEnv "You are a test assistant." (fun _ _ => Responded 200 (inr [couchContent]))
        1700000000000000000 None.

(** The inbound text message of the same test. *)
Definition couchMessage : WAMessage.t :=
  WAMessage.mk phone "wamid.test001" "text" (Some (WAText.mk "I need a couch removed.")).

Definition emptyWorld : World := mkWorld database.Init [].

(** The store of TestUpsertConversation_Idempotent and of
    TestHandleSlackInteractive_AlreadyPaused: one conversation, paused. *)
Definition pausedStore : database.DB :=
  fst (database.PauseConversation (fst (database.UpsertConversation database.Init phone))
                                  phone).

(** The store of TestHandleSlackInteractive_TakeOver_PausesConversation. *)
Definition activeStore : database.DB :=
  fst (database.UpsertConversation database.Init phone).

End fixtures.

Module deliveries.

Import fixtures.

(** The world once the couch message has gone through with the backend up. *)
Definition served : World :=
  handlers.handleMessage testConfig replyCodec backendUp emptyWorld couchMessage.

(** A paused conversation, and the world once it has received the couch
    message: the message is recorded and the static reply has gone out. *)
Definition pausedWorld : World := mkWorld pausedStore [].


(** A second message of the same customer. *)
Definition stairsMessage : WAMessage.t :=
  WAMessage.mk phone "wamid.test002" "text" (Some (WAText.mk "There are two flights of stairs.")).

End deliveries.

Module callbacks.

Import fixtures.

(** The payload of TestHandleSlackInteractive_TakeOver_PausesConversation,
    its JSON text and the form body that carries it. *)
Definition takeOver : SlackInteractivePayload.t :=
  SlackInteractivePayload.mk "block_actions" (SlackUser.mk "U123" "adriantest")
                             [SlackAction.mk "take_over_chat" phone].

Definition takeOverJSON : string :=
  "{type:block_actions,user:{id:U123,username:adriantest}," +:+
  "actions:[{action_id:take_over_chat,value:14165551234}]}".

Definition takeOverBody : string := "payload=" +:+ takeOverJSON.

Definition slackCodec : Codec :=
  mkCodec (fun _ => None) (fun _ => inl "unexpected end of JSON input")
          (fun body => if String.eqb body takeOverBody
                       then Some {[ "payload" := [takeOverJSON] ]} else None)
          (fun payload => if String.eqb payload takeOverJSON then Some takeOver else None).

(** The request Slack sends at Unix time 1700000000, signed. *)
Definition takeOverRequest : handlers.Request :=
  handlers.mkRequest
    (Some takeOverBody)
    {[ "X-Slack-Request-Timestamp" := "1700000000";
       "X-Slack-Signature" :=
         handlers.slackSignature (Config.SlackSigningSecret testConfig) "1700000000"
                                 takeOverBody ]}.

(** A callback of Slack whose take-over comes second among its actions. *)
Definition secondAction : SlackInteractivePayload.t :=
  SlackInteractivePayload.mk "block_actions" (SlackUser.mk "U123" "adriantest")
                             [SlackAction.mk "view_thread" phone;
                              SlackAction.mk "take_over_chat" phone].

Definition secondActionJSON : string :=
  "{type:block_actions,user:{id:U123,username:adriantest}," +:+
  "actions:[{action_id:view_thread,value:14165551234}," +:+
  "{action_id:take_over_chat,value:14165551234}]}".

Definition secondActionBody : string := "payload=" +:+ secondActionJSON.

Definition secondActionCodec : Codec :=
  mkCodec (fun _ => None) (fun _ => inl "unexpected end of JSON input")
          (fun body => if String.eqb body secondActionBody
                       then Some {[ "payload" := [secondActionJSON] ]} else None)
          (fun payload => if String.eqb payload secondActionJSON
                          then Some secondAction else None).

Definition secondActionRequest : handlers.Request :=
  handlers.mkRequest
    (Some secondActionBody)
    {[ "X-Slack-Request-Timestamp" := "1700000000";
       "X-Slack-Signature" :=
         handlers.slackSignature (Config.SlackSigningSecret testConfig) "1700000000"
                                 secondActionBody ]}.

(** A callback of Meta whose first change carries statuses only and
    whose second change carries the couch message, and its JSON text. *)
Definition batched : WAPayload.t :=
  WAPayload.mk "whatsapp_business_account"
    [WAEntry.mk [WAChange.mk (WAValue.mk []);
                 WAChange.mk (WAValue.mk [couchMessage])]].

Definition batchedBody : string :=
  "{object:whatsapp_business_account,entry:[{changes:[" +:+
  "{value:{statuses:[{id:wamid.status,status:delivered}]}}," +:+
  "{value:{messages:[{from:14165551234,id:wamid.test001,type:text," +:+
  "text:{body:I need a couch removed.}}]}}]}]}".

Definition batchedCodec : Codec :=
  mkCodec (fun body => if String.eqb body batchedBody then Some batched else None)
          (fun content => if String.eqb content couchContent then inr couchReply
                          else inl "invalid character")
          (fun _ => None) (fun _ => None).

End callbacks.

(** ** The other entry points *)

(** GET /whatsapp/webhook, the verification handshake of Meta; [query]
    is [r.URL.Query()]. *)
Definition VerifyWebhook (cfg : Config.t) (query : gmap string (list string))
  : handlers.ResponseWriter :=
  let mode := handlers.Values_Get query "hub.mode" in
  let challenge := handlers.Values_Get query "hub.challenge" in
  let token := handlers.Values_Get query "hub.verify_token" in
  if String.eqb mode "subscribe" && String.eqb token (Config.MetaVerifyToken cfg)
  then handlers.Write (handlers.WriteHeader handlers.NewRecorder 200) (handlers.Text challenge)
  else handlers.http_Error handlers.NewRecorder "forbidden" 403.

(** ** Package config, [Load] *)

Module config.

(** [os.Getenv]: the empty string for a variable that is not set. *)
Definition Getenv (environ : gmap string string) (key : string) : string :=
  default "" (environ !! key).

(** The map [required] of [Load]: variable name to the value read. *)
Definition required (c : Config.t) : gmap string string :=
  list_to_map
    [("META_VERIFY_TOKEN", Config.MetaVerifyToken c);
     ("META_APP_SECRET", Config.MetaAppSecret c);
     ("META_ACCESS_TOKEN", Config.MetaAccessToken c);
     ("META_PHONE_NUMBER_ID", Config.MetaPhoneNumberID c);
     ("DEEPSEEK_API_KEY", Config.DeepSeekAPIKey c);
     ("SLACK_WEBHOOK_URL", Config.SlackWebhookURL c);
     ("SLACK_SIGNING_SECRET", Config.SlackSigningSecret c)].

Definition requiredKeys : list string :=
  ["META_VERIFY_TOKEN"; "META_APP_SECRET"; "META_ACCESS_TOKEN"; "META_PHONE_NUMBER_ID";
   "DEEPSEEK_API_KEY"; "SLACK_WEBHOOK_URL"; "SLACK_SIGNING_SECRET"].

(** [for key, val := range required]: the loop visits the keys in an
    order Go does not fix; [order] is that order.  The result is the first
    key visited whose value is empty. *)
Fixpoint firstMissing (req : gmap string string) (order : list string) : option string :=
  match order with
  | [] => None
  | key :: rest =>
      match req !! key with
      | Some val => if String.eqb val "" then Some key else firstMissing req rest
      | None => firstMissing req rest
      end
  end.

(** [Load]: the configuration is a pointer, [None] is nil. *)
Definition Load (order : list string) (environ : gmap string string)
  : option Config.t * error :=
  let dbPath := Getenv environ "DB_PATH" in
  let dbPath := if String.eqb dbPath "" then "/data/db.sqlite" else dbPath in
  let c := Config.mk dbPath
                     (Getenv environ "META_VERIFY_TOKEN")
                     (Getenv environ "META_APP_SECRET")
                     (Getenv environ "META_ACCESS_TOKEN")
                     (Getenv environ "META_PHONE_NUMBER_ID")
                     (Getenv environ "DEEPSEEK_API_KEY")
                     (Getenv environ "SLACK_WEBHOOK_URL")
                     (Getenv environ "SLACK_SIGNING_SECRET") in
  match firstMissing (required c) order with
  | Some key => (None, Some ("missing required environment variable: " +:+ key))
  | None => (Some c, None)
  end.

End config.

(** ** The lock table of whatsapp.go *)

Module locks.

(** [conversationLocks]: phone number to mutex.  A mutex is known by its
    address; [allocated] counts the mutexes made so far, so the next
    [&sync.Mutex{}] is a new one. *)
Record Table : Type := mkTable {
  entries : gmap string nat;
  allocated : nat
}.

Definition empty : Table := mkTable ∅ O.

(** [lockFor]: [LoadOrStore(phone, &sync.Mutex{})] makes a mutex at each
    call and keeps it only when the phone has none yet. *)
Definition lockFor (t : Table) (phone : string) : nat * Table :=
  let fresh := allocated t in
  match entries t !! phone with
  | Some mu => (mu, mkTable (entries t) (S fresh))
  | None => (fresh, mkTable (<[phone := fresh]> (entries t)) (S fresh))
  end.

(** A table as calls of [lockFor] make it: every mutex kept was made
    earlier, and no mutex is kept for two phones. *)
Definition consistent (t : Table) : Prop :=
  (forall phone mu, entries t !! phone = Some mu -> (mu < allocated t)%nat) /\
  (forall p q mu, entries t !! p = Some mu -> entries t !! q = Some mu -> p = q).

(** The locks of a sequence of calls, in order. *)
Fixpoint lockEach (t : Table) (phones : list string) : list nat :=
  match phones with
  | [] => []
  | phone :: rest => fst (lockFor t phone) :: lockEach (snd (lockFor t phone)) rest
  end.

End locks.

(** ** What the store keeps *)

(** The constraints of the schema, as a property of a store: message
    identifiers are unique, every message and every extracted-data row
    names a conversation that exists. *)
Definition wellformed (db : database.DB) : Prop :=
  NoDup (map Message.ID (database.messages db)) /\
  Forall (fun m => is_Some (database.conversations db !! Message.ConversationID m))
         (database.messages db) /\
  (forall c, is_Some (database.quote_data db !! c) ->
             is_Some (database.conversations db !! c)).

(** Is the event a message to a customer? *)
Definition isSend (e : Event) : bool :=
  match e with
  | SendWhatsApp _ _ => true
  | _ => false
  end.


(** A writing operation on behalf of one conversation that is no pause. *)
Definition quiet (phone : string) (op : database.Op) : Prop :=
  match op with
  | database.OpUpsertConversation p => p = phone
  | database.OpPauseConversation _ => False
  | database.OpInsertMessage m => Message.ConversationID m = phone
  | database.OpUpsertQuoteData c _ => c = phone
  end.

(** The rows of one conversation. *)
Definition transcript (db : database.DB) (conversationID : string) : list Message.t :=
  filter (fun m => Message.ConversationID m = conversationID) (database.messages db).


(** How one store follows another in the inbound pipeline: every
    conversation keeps its state, new ones are ACTIVE, rows are only
    added, and the constraints of the schema are kept. *)
Definition follows (db db' : database.DB) : Prop :=
  (forall q, database.conversations db' !! q = database.conversations db !! q \/
             (database.conversations db !! q = None /\
              database.conversations db' !! q = Some database.ACTIVE)) /\
  database.messages db `prefix_of` database.messages db' /\
  (wellformed db -> wellformed db').


Module payloads.

Import fixtures.

(** A callback that batches two messages of the customer in one change,
    and the delivery receipt of TestHandleWhatsAppMessage_StatusPayload_Returns200,
    with their JSON texts. *)
Definition twoMessages : WAPayload.t :=
  WAPayload.mk "whatsapp_business_account"
    [WAEntry.mk [WAChange.mk (WAValue.mk [couchMessage; deliveries.stairsMessage])]].

Definition twoMessagesBody : string :=
  "{object:whatsapp_business_account,entry:[{changes:[{value:{messages:[" +:+
  "{from:14165551234,id:wamid.test001,type:text,text:{body:I need a couch removed.}}," +:+
  "{from:14165551234,id:wamid.test002,type:text," +:+
  "text:{body:There are two flights of stairs.}}]}}]}]}".

Definition receipt : WAPayload.t :=
  WAPayload.mk "whatsapp_business_account" [WAEntry.mk [WAChange.mk (WAValue.mk [])]].

Definition receiptBody : string :=
  "{object:whatsapp_business_account,entry:[{changes:[{value:{statuses:[" +:+
  "{id:wamid.status,status:delivered}]}}]}]}".

Definition codec : Codec :=
  mkCodec (fun body => if String.eqb body twoMessagesBody then Some twoMessages
                       else if String.eqb body receiptBody then Some receipt
                       else None)
          (fun content => if String.eqb content couchContent then inr couchReply
                          else inl "invalid character")
          (fun _ => None) (fun _ => None).

End payloads.


(** * Properties *)

Import database handlers.

Arguments crypto.mac_hex : simpl never.

(** ** The library layer computes what the Go packages compute *)

Example sha256_abc :
  crypto.hex (crypto.sum256 (crypto.bytes_of "abc"))
  = "ba7816bf8f01cfea414140de5dae2223b00361a396177a9cb410ff61f20015ad".
Proof. vm_compute. reflexivity. Qed.

Example hmac_rfc4231_case2 :
  crypto.mac_hex "Jefe" "what do ya want for nothing?"
  = "5bdcc146bf60754e6a042426089575c75a003f089d2739839dec58b964ec3843".
Proof. vm_compute. reflexivity. Qed.

(** A key and a message longer than one block. *)
Example hmac_long_key :
  crypto.mac_hex "kkkkkkkkkkkkkkkkkkkkkkkkkkkkkkkkkkkkkkkkkkkkkkkkkkkkkkkkkkkkkkkkkkkkkk" "xxxxxxxxxxxxxxxxxxxxxxxxxxxxxxxxxxxxxxxxxxxxxxxxxxxxxxxxxxxxxxxxxxxxxxxxxxxxxxxxxxxxxxxxxxxxxxxxxxxxxxxxxxxxxxxxxxxxxxxxxxxxxxxxxx"
  = "65f3828fb4164fc0fce3be71ca4cf0a8915b8e484444e7765ab030abe4c28ac0".
Proof. vm_compute. reflexivity. Qed.

Example ParseInt_examples :
  strconv.ParseInt "1700000000" = Some 1700000000 /\
  strconv.ParseInt "+5" = Some 5 /\
  strconv.ParseInt "-9223372036854775808" = Some (- 2 ^ 63) /\
  strconv.ParseInt "9223372036854775808" = None /\
  strconv.ParseInt "" = None /\
  strconv.ParseInt "-" = None /\
  strconv.ParseInt "12a" = None /\
  strconv.ParseInt " 12" = None.
Proof. repeat split; reflexivity. Qed.

(** ** Strings and numbers *)

Lemma eqb_false_iff (a b : string) : String.eqb a b = false <-> a <> b.
Proof. apply String.eqb_neq. Qed.

Lemma CutPrefix_app (p s : string) : strings.CutPrefix (p +:+ s) p = Some s.
Proof.
  induction p as [|a p IH]; simpl.
  - reflexivity.
  - rewrite Ascii.eqb_refl. exact IH.
Qed.

Lemma TrimPrefix_app (p s : string) : strings.TrimPrefix (p +:+ s) p = s.
Proof. unfold strings.TrimPrefix. rewrite CutPrefix_app. reflexivity. Qed.

Lemma digit_bounds (a : ascii) (d : Z) : strconv.digit a = Some d -> 0 <= d <= 9.
Proof.
  unfold strconv.digit. intros H.
  destruct (48 <=? Z.of_N (N_of_ascii a)) eqn:E1; simpl in H; [|discriminate].
  destruct (Z.of_N (N_of_ascii a) <=? 57) eqn:E2; simpl in H; [|discriminate].
  injection H as <-. apply Z.leb_le in E1, E2. lia.
Qed.

Lemma digits_nonneg (s : string) : forall acc n,
  0 <= acc -> strconv.digits s acc = Some n -> 0 <= n.
Proof.
  induction s as [|a s IH]; simpl; intros acc n Hacc H.
  - injection H as <-. exact Hacc.
  - destruct (strconv.digit a) as [d|] eqn:Ed; [|discriminate].
    apply digit_bounds in Ed. apply (IH (10 * acc + d)); [lia | exact H].
Qed.

Lemma ParseUint_nonneg (s : string) (n : Z) : strconv.ParseUint s = Some n -> 0 <= n.
Proof.
  destruct s as [|a s]; simpl; [discriminate|].
  intros H. apply (digits_nonneg (String a s) 0 n); [lia | exact H].
Qed.

(** What [ParseInt] accepts is an [int64]. *)
Lemma ParseInt_range (s : string) (t : Z) :
  strconv.ParseInt s = Some t -> - 2 ^ 63 <= t < 2 ^ 63.
Proof.
  destruct s as [|c rest]; simpl; [discriminate|].
  destruct (strconv.ParseUint _) as [un|] eqn:Eu; [|discriminate].
  apply ParseUint_nonneg in Eu.
  destruct (Ascii.eqb c "-"); simpl.
  - destruct (2 ^ 63 <? un) eqn:E; [discriminate|].
    apply Z.ltb_ge in E. intros H. injection H as <-. lia.
  - destruct (2 ^ 63 <=? un) eqn:E; [discriminate|].
    apply Z.leb_gt in E. intros H. injection H as <-. lia.
Qed.

Lemma wrap64_id (z : Z) : - 2 ^ 63 <= z < 2 ^ 63 -> wrap64 z = z.
Proof. intros H. unfold wrap64. rewrite Z.mod_small; lia. Qed.

(** ** Signature verification *)

Lemma verifyMetaSignature_valid (secret body : string) :
  verifyMetaSignature secret body (metaSignature secret body) = true.
Proof.
  unfold verifyMetaSignature, metaSignature, hmac_Equal.
  rewrite TrimPrefix_app. rewrite String.eqb_refl. reflexivity.
Qed.

Lemma verifyMetaSignature_empty (secret body : string) :
  verifyMetaSignature secret body "" = false.
Proof. reflexivity. Qed.

Lemma verifyMetaSignature_mismatch (secret body header : string) :
  strings.TrimPrefix header "sha256=" <> crypto.mac_hex secret body ->
  verifyMetaSignature secret body header = false.
Proof.
  intros H. unfold verifyMetaSignature, hmac_Equal.
  destruct (String.eqb header ""); [reflexivity|].
  apply String.eqb_neq. congruence.
Qed.

Lemma verifySlackSignature_empty_signature (now : Z) (secret timestamp body : string) :
  verifySlackSignature now secret timestamp body "" = false.
Proof. unfold verifySlackSignature. destruct (String.eqb timestamp ""); reflexivity. Qed.

Lemma verifySlackSignature_absent_timestamp (now : Z) (secret body signature : string) :
  verifySlackSignature now secret "" body signature = false.
Proof. reflexivity. Qed.

Lemma verifySlackSignature_unparsable (now : Z) (secret timestamp body signature : string) :
  strconv.ParseInt timestamp = None ->
  verifySlackSignature now secret timestamp body signature = false.
Proof.
  intros H. unfold verifySlackSignature. rewrite H.
  destruct (String.eqb timestamp "" || String.eqb signature ""); reflexivity.
Qed.

Lemma verifySlackSignature_mismatch (now : Z) (secret timestamp body signature : string) :
  signature <> slackSignature secret timestamp body ->
  verifySlackSignature now secret timestamp body signature = false.
Proof.
  intros H. unfold verifySlackSignature, hmac_Equal.
  destruct (String.eqb timestamp "" || String.eqb signature ""); [reflexivity|].
  destruct (strconv.ParseInt timestamp) as [ts|]; [|reflexivity].
  destruct (wrap64 (now - ts) >? 300); [reflexivity|].
  apply String.eqb_neq. unfold slackSignature in H. congruence.
Qed.

(** X23.  A timestamp more than 300 seconds old is refused as long as the
    difference to the clock is itself an [int64]. *)
Lemma verifySlackSignature_stale (now ts : Z) (secret timestamp body signature : string) :
  strconv.ParseInt timestamp = Some ts ->
  300 < now - ts < 2 ^ 63 ->
  verifySlackSignature now secret timestamp body signature = false.
Proof.
  intros Hp Hold. unfold verifySlackSignature. rewrite Hp.
  destruct (String.eqb timestamp "" || String.eqb signature ""); [reflexivity|].
  rewrite wrap64_id by lia.
  destruct (now - ts >? 300) eqn:E; [reflexivity|].
  rewrite Z.gtb_ltb, Z.ltb_ge in E. lia.
Qed.

Lemma verifySlackSignature_valid (now ts : Z) (secret timestamp body : string) :
  strconv.ParseInt timestamp = Some ts ->
  - 2 ^ 63 <= now - ts <= 300 ->
  verifySlackSignature now secret timestamp body (slackSignature secret timestamp body) = true.
Proof.
  intros Hp Hage.
  assert (String.eqb timestamp "" = false) as Ht
    by (destruct timestamp; [discriminate | reflexivity]).
  unfold verifySlackSignature, slackSignature, hmac_Equal.
  rewrite Ht, Hp. simpl orb. cbv iota.
  rewrite wrap64_id by lia.
  destruct (now - ts >? 300) eqn:E.
  - rewrite Z.gtb_ltb in E. apply Z.ltb_lt in E. lia.
  - apply String.eqb_refl.
Qed.

(** C10.  The replay check of the escalation callback is one-sided: with
    the clock at a non-negative Unix time [now], every timestamp that
    [strconv.ParseInt] reads as an integer at or after [now - 300], however
    far in the future, verifies as soon as the presented signature is the
    hash computed over the version tag, the timestamp and the body. *)
Theorem verifySlackSignature_one_sided
    (now ts : Z) (secret timestamp body signature : string) :
  0 <= now < 2 ^ 63 ->
  strconv.ParseInt timestamp = Some ts ->
  now - 300 <= ts ->
  signature = "v0=" +:+ crypto.mac_hex secret ("v0:" +:+ timestamp +:+ ":" +:+ body) ->
  verifySlackSignature now secret timestamp body signature = true.
Proof.
  intros Hnow Hp Hts ->.
  pose proof (ParseInt_range _ _ Hp) as Hr.
  apply (verifySlackSignature_valid now ts); [exact Hp | lia].
Qed.

(** The largest timestamp there is, some 292 billion years ahead of the clock. *)
Lemma verifySlackSignature_one_sided_witness :
  verifySlackSignature 1700000000 "test-slack-secret" "9223372036854775807" "payload=test"
    ("v0=" +:+ crypto.mac_hex "test-slack-secret"
                 ("v0:" +:+ "9223372036854775807" +:+ ":" +:+ "payload=test")) = true.
Proof.
  apply (verifySlackSignature_one_sided 1700000000 (2 ^ 63 - 1)).
  - lia.
  - reflexivity.
  - lia.
  - reflexivity.
Defined.

(** The subtraction [time.Now().Unix() - ts] is an [int64] subtraction.
    For a timestamp so far in the past that the difference exceeds the
    largest [int64] it wraps around to a negative number, which is not
    greater than 300: the request passes the replay check. *)
Lemma verifySlackSignature_wraps (now ts : Z) (secret timestamp body : string) :
  strconv.ParseInt timestamp = Some ts ->
  2 ^ 63 <= now - ts < 2 ^ 64 ->
  verifySlackSignature now secret timestamp body (slackSignature secret timestamp body) = true.
Proof.
  intros Hp Hage.
  assert (String.eqb timestamp "" = false) as Ht
    by (destruct timestamp; [discriminate | reflexivity]).
  unfold verifySlackSignature, slackSignature, hmac_Equal.
  rewrite Ht, Hp. simpl orb. cbv iota.
  assert (wrap64 (now - ts) = now - ts - 2 ^ 64) as ->.
  { unfold wrap64.
    replace (now - ts + 2 ^ 63) with ((now - ts - 2 ^ 63) + 1 * 2 ^ 64) by lia.
    rewrite Z.mod_add by lia. rewrite Z.mod_small; lia. }
  destruct (now - ts - 2 ^ 64 >? 300) eqn:E.
  - rewrite Z.gtb_ltb in E. apply Z.ltb_lt in E. lia.
  - apply String.eqb_refl.
Qed.

(** C7.  The code at the failing input: the timestamp header holds the
    least [int64], far more than 300 seconds before the clock, the
    signature is the one computed for it, and verification returns true. *)
Theorem verifySlackSignature_replay_window_overflow :
  strconv.ParseInt "-9223372036854775808" = Some (- 2 ^ 63) /\
  300 < 1700000000 - (- 2 ^ 63) /\
  verifySlackSignature 1700000000 "test-slack-secret" "-9223372036854775808" "payload=test"
    (slackSignature "test-slack-secret" "-9223372036854775808" "payload=test") = true.
Proof.
  split; [reflexivity|]. split; [lia|].
  vm_compute. reflexivity.
Qed.

(** ** The model gateway, [llm.Call] *)

Section Gateway.

Variables (codec : Codec) (env : Env) (apiKey : string) (history : list Message.t).

Lemma validAction_iff (a : string) :
  llm.validAction a = true <-> a = "continue" \/ a = "handoff" \/ a = "schedule".
Proof.
  unfold llm.validAction. rewrite !orb_true_iff, !String.eqb_eq. tauto.
Qed.

Lemma validated_ok (r : LLMResponse.t) :
  LLMResponse.ReplyToUser (llm.validated r) <> "" /\
  llm.validAction (LLMResponse.Action (llm.validated r)) = true.
Proof.
  unfold llm.validated; simpl. split.
  - destruct (String.eqb (LLMResponse.ReplyToUser r) "") eqn:E.
    + discriminate.
    + apply String.eqb_neq. exact E.
  - destruct (llm.validAction (LLMResponse.Action r)) eqn:E; [exact E | reflexivity].
Qed.

Lemma Call_failed_before_response :
  (forall e, llm.exchange env apiKey history = MarshalFailed e \/ llm.exchange env apiKey history = NewRequestFailed e \/ llm.exchange env apiKey history = DoFailed e ->
     exists err, llm.Call codec env apiKey history = (Some llm.fallback, Some err)).
Proof.
  intros e H. unfold llm.Call, llm.exchange in *.
  destruct H as [H | [H | H]]; rewrite H; eauto.
Qed.

Lemma Call_status (StatusCode : Z) (decoded : string + list string) :
  llm.exchange env apiKey history = Responded StatusCode decoded -> StatusCode <> 200 ->
  exists err, llm.Call codec env apiKey history = (Some llm.fallback, Some err).
Proof.
  intros H Hs. unfold llm.Call, llm.exchange in *. rewrite H.
  apply Z.eqb_neq in Hs. rewrite Hs. simpl. eauto.
Qed.

Lemma Call_undecodable (e : string) :
  llm.exchange env apiKey history = Responded 200 (inl e) ->
  exists err, llm.Call codec env apiKey history = (Some llm.fallback, Some err).
Proof. intros H. unfold llm.Call, llm.exchange in *. rewrite H. simpl. eauto. Qed.

Lemma Call_empty_choices :
  llm.exchange env apiKey history = Responded 200 (inr []) ->
  exists err, llm.Call codec env apiKey history = (Some llm.fallback, Some err).
Proof. intros H. unfold llm.Call, llm.exchange in *. rewrite H. simpl. eauto. Qed.

Lemma Call_unparsable (content e : string) (rest : list string) :
  llm.exchange env apiKey history = Responded 200 (inr (content :: rest)) ->
  UnmarshalLLMResponse codec content = inl e ->
  exists err, llm.Call codec env apiKey history = (Some llm.fallback, Some err).
Proof. intros H Hu. unfold llm.Call, llm.exchange in *. rewrite H. simpl. rewrite Hu. eauto. Qed.

Lemma Call_parsed (content : string) (rest : list string) (r : LLMResponse.t) :
  llm.exchange env apiKey history = Responded 200 (inr (content :: rest)) ->
  UnmarshalLLMResponse codec content = inr r ->
  llm.Call codec env apiKey history = (Some (llm.validated r), None).
Proof.
  intros H Hu. unfold llm.Call, llm.exchange in *. rewrite H. simpl. rewrite Hu.
  unfold llm.validated, llm.holdingReply.
  destruct (llm.validAction (LLMResponse.Action r)); reflexivity.
Qed.

(** Every path of [Call] ends in one of two shapes. *)
Lemma Call_shape :
  (exists err, llm.Call codec env apiKey history = (Some llm.fallback, Some err)) \/
  (exists r, llm.Call codec env apiKey history = (Some (llm.validated r), None)).
Proof.
  destruct (llm.exchange env apiKey history) as [e|e|e|code [e|[|content rest]]] eqn:E.
  - left. apply (Call_failed_before_response e). auto.
  - left. apply (Call_failed_before_response e). auto.
  - left. apply (Call_failed_before_response e). auto.
  - destruct (Z.eq_dec code 200) as [->|Hc].
    + left. apply (Call_undecodable e E).
    + left. apply (Call_status code _ E Hc).
  - destruct (Z.eq_dec code 200) as [->|Hc].
    + left. apply (Call_empty_choices E).
    + left. apply (Call_status code _ E Hc).
  - destruct (Z.eq_dec code 200) as [->|Hc].
    + destruct (UnmarshalLLMResponse codec content) as [e|r] eqn:Eu.
      * left. apply (Call_unparsable content e rest E Eu).
      * right. exists r. apply (Call_parsed content rest r E Eu).
    + left. apply (Call_status code _ E Hc).
Qed.

End Gateway.

(** C2.  [llm.Call] never returns a nil reply.  On a failure to build or
    send the request (transport failure, timeout), a status other than
    200, a body that does not decode, an empty list of choices or a
    content that does not parse, it returns the fixed fallback
    (the apology, action "continue") with a non-nil error.  When the error
    is nil the reply text is not empty and the action is one of continue,
    handoff, schedule: an empty text was replaced by the holding message and
    any other action by "continue".  A response with status 200 whose first
    choice parses does succeed. *)
Theorem llm_Call_contract
    (codec : Codec) (env : Env) (apiKey : string) (history : list Message.t) :
  let ex := llm.exchange env apiKey history in
  let out := llm.Call codec env apiKey history in
  (exists reply, fst out = Some reply) /\
  (LLMResponse.ReplyToUser llm.fallback
     = "Sorry, I ran into a technical issue. Our team will follow up with you shortly." /\
   LLMResponse.Action llm.fallback = "continue") /\
  ((exists e, ex = MarshalFailed e \/ ex = NewRequestFailed e \/ ex = DoFailed e) \/
   (exists code decoded, ex = Responded code decoded /\ code <> 200) \/
   (exists e, ex = Responded 200 (inl e)) \/
   ex = Responded 200 (inr []) \/
   (exists content rest e,
      ex = Responded 200 (inr (content :: rest)) /\
      UnmarshalLLMResponse codec content = inl e) ->
   fst out = Some llm.fallback /\ snd out <> None) /\
  (snd out = None ->
   exists reply, fst out = Some reply /\
     LLMResponse.ReplyToUser reply <> "" /\
     (LLMResponse.Action reply = "continue" \/
      LLMResponse.Action reply = "handoff" \/
      LLMResponse.Action reply = "schedule")) /\
  (forall content rest r,
     ex = Responded 200 (inr (content :: rest)) ->
     UnmarshalLLMResponse codec content = inr r ->
     out = (Some (llm.validated r), None) /\
     LLMResponse.ReplyToUser (llm.validated r)
       = (if String.eqb (LLMResponse.ReplyToUser r) "" then llm.holdingReply
          else LLMResponse.ReplyToUser r) /\
     LLMResponse.Action (llm.validated r)
       = (if llm.validAction (LLMResponse.Action r) then LLMResponse.Action r
          else "continue")).
Proof.
  intros ex out. subst ex out. repeat apply conj.
  - destruct (Call_shape codec env apiKey history) as [[err H] | [r H]];
      rewrite H; simpl; eauto.
  - reflexivity.
  - reflexivity.
  - intros H.
    assert (exists err, llm.Call codec env apiKey history = (Some llm.fallback, Some err))
      as [err Herr].
    { destruct H as [[e H] | [(code & d & H & Hc) | [[e H] | [H | (c & cs & e & H & Hu)]]]].
      - apply (Call_failed_before_response codec env apiKey history e H).
      - apply (Call_status codec env apiKey history code d H Hc).
      - apply (Call_undecodable codec env apiKey history e H).
      - apply (Call_empty_choices codec env apiKey history H).
      - apply (Call_unparsable codec env apiKey history c e cs H Hu). }
    rewrite Herr. simpl. split; [reflexivity | discriminate].
  - intros Hnil.
    destruct (Call_shape codec env apiKey history) as [[err H] | [r H]];
      rewrite H in *; simpl in *; [discriminate|].
    exists (llm.validated r). split; [reflexivity|].
    destruct (validated_ok r) as [Ht Ha]. split; [exact Ht|].
    apply validAction_iff. exact Ha.
  - intros content rest r H Hu. split; [|split; reflexivity].
    apply (Call_parsed codec env apiKey history content rest r H Hu).
Qed.

Lemma llm_Call_contract_witness :
  (fst (llm.Call fixtures.noCodec fixtures.backendDown "test-deepseek-key" [])
     = Some llm.fallback /\
   snd (llm.Call fixtures.noCodec fixtures.backendDown "test-deepseek-key" []) <> None) /\
  llm.Call fixtures.replyCodec fixtures.backendUp "test-deepseek-key" []
    = (Some fixtures.couchReply, None).
Proof.
  split.
  - destruct (llm_Call_contract fixtures.noCodec fixtures.backendDown "test-deepseek-key" [])
      as (_ & _ & Hfail & _).
    apply Hfail. left. exists "context deadline exceeded". right. right. reflexivity.
  - destruct (llm_Call_contract fixtures.replyCodec fixtures.backendUp "test-deepseek-key" [])
      as (_ & _ & _ & _ & Hok).
    destruct (Hok fixtures.couchContent [] fixtures.couchReply eq_refl eq_refl) as [H _].
    exact H.
Defined.

(** ** The store *)

Lemma filter_length_pos {A} (P : A -> Prop) `{forall x, Decision (P x)} (l : list A) :
  (0 < length (filter P l))%nat <-> Exists P l.
Proof.
  induction l as [|x l IH].
  - simpl. split; [lia | intros E; inversion E].
  - rewrite filter_cons. destruct (decide (P x)) as [Hx|Hx].
    + simpl. split; [intros _; constructor 1; exact Hx | lia].
    + rewrite IH. split.
      * intros E. constructor 2. exact E.
      * intros E. inversion E; [contradiction | assumption].
Qed.

Lemma MessageExists_stored (db : DB) (id : string) :
  stored db id -> MessageExists db id = (true, None).
Proof.
  intros H. unfold MessageExists. f_equal.
  apply bool_decide_eq_true. apply filter_length_pos. exact H.
Qed.

Lemma MessageExists_fresh (db : DB) (id : string) :
  ~ stored db id -> MessageExists db id = (false, None).
Proof.
  intros H. unfold MessageExists. f_equal.
  apply bool_decide_eq_false. rewrite filter_length_pos. exact H.
Qed.

Lemma UpsertConversation_existing (db : DB) (phone : string) (s : Status) :
  conversations db !! phone = Some s -> UpsertConversation db phone = (db, None).
Proof. intros H. unfold UpsertConversation. rewrite H. reflexivity. Qed.

Lemma GetConversationStatus_existing (db : DB) (phone : string) (s : Status) :
  conversations db !! phone = Some s -> GetConversationStatus db phone = (status_text s, None).
Proof. intros H. unfold GetConversationStatus. rewrite H. reflexivity. Qed.

Lemma InsertMessage_fresh (db : DB) (m : Message.t) (s : Status) :
  ~ stored db (Message.ID m) ->
  conversations db !! Message.ConversationID m = Some s ->
  InsertMessage db m = (mkDB (conversations db) (messages db ++ [m]) (quote_data db), None).
Proof.
  intros Hf Hc. unfold InsertMessage.
  rewrite (proj2 (bool_decide_eq_false _) Hf). rewrite Hc. reflexivity.
Qed.

(** The second insertion of an identifier is refused: the primary key. *)
Lemma InsertMessage_duplicate (db : DB) (m : Message.t) :
  stored db (Message.ID m) -> exists e, InsertMessage db m = (db, Some e).
Proof.
  intros H. unfold InsertMessage.
  rewrite (proj2 (bool_decide_eq_true _) H). eauto.
Qed.

(** No statement touches the status of a conversation except to pause it,
    and none removes a conversation. *)
Lemma exec_status (db : DB) (op : Op) (phone : string) (s : Status) :
  conversations db !! phone = Some s ->
  exists s', conversations (exec db op) !! phone = Some s' /\
             (s' = s \/ (s = ACTIVE /\ s' = PAUSED)).
Proof.
  intros H. destruct op as [p|p|m|c j]; simpl.
  - unfold UpsertConversation. destruct (conversations db !! p) eqn:E; simpl.
    + eauto.
    + rewrite lookup_insert_ne by congruence. eauto.
  - rewrite lookup_alter. destruct (decide (p = phone)) as [->|Hne].
    + rewrite H. simpl. exists PAUSED. split; [reflexivity|]. destruct s; auto.
    + eauto.
  - unfold InsertMessage.
    destruct (bool_decide _); simpl; [eauto|].
    destruct (conversations db !! Message.ConversationID m); simpl; eauto.
  - unfold UpsertQuoteData.
    destruct (conversations db !! c); simpl; eauto.
Qed.

Lemma run_status (ops : list Op) : forall (db : DB) (phone : string) (s : Status),
  conversations db !! phone = Some s ->
  exists s', conversations (run ops db) !! phone = Some s' /\
             (s' = s \/ (s = ACTIVE /\ s' = PAUSED)).
Proof.
  induction ops as [|op ops IH]; intros db phone s H.
  - simpl. eauto.
  - destruct (exec_status db op phone s H) as (s1 & H1 & Hs1).
    destruct (IH (exec db op) phone s1 H1) as (s2 & H2 & Hs2).
    exists s2. split; [exact H2|].
    destruct Hs1 as [-> | [-> ->]]; [exact Hs2|].
    destruct Hs2 as [-> | [? _]]; [auto | discriminate].
Qed.

(** C6.  In every sequence of the writing operations (UpsertConversation,
    PauseConversation, InsertMessage, UpsertQuoteData) a conversation that
    exists still exists afterwards, its state is the one it had or has moved
    from ACTIVE to PAUSED, so a PAUSED conversation stays PAUSED; and
    UpsertConversation on an existing identifier changes nothing. *)
Theorem conversation_state_only_pauses
    (ops : list Op) (db : DB) (phone : string) (s : Status) :
  conversations db !! phone = Some s ->
  (exists s', conversations (run ops db) !! phone = Some s' /\
              (s' = s \/ (s = ACTIVE /\ s' = PAUSED)) /\
              (s = PAUSED -> s' = PAUSED)) /\
  UpsertConversation db phone = (db, None) /\
  conversations (fst (UpsertConversation db phone)) !! phone = Some s.
Proof.
  intros H. split; [|split].
  - destruct (run_status ops db phone s H) as (s' & H' & Hs).
    exists s'. split; [exact H'|]. split; [exact Hs|].
    intros ->. destruct Hs as [-> | [? _]]; [reflexivity | discriminate].
  - apply (UpsertConversation_existing db phone s H).
  - rewrite (UpsertConversation_existing db phone s H). exact H.
Qed.

Lemma conversation_state_only_pauses_witness :
  (exists s',
     conversations
       (run [OpUpsertConversation fixtures.phone;
             OpInsertMessage (Message.mk "wamid.test123" fixtures.phone "user" "hello");
             OpUpsertQuoteData fixtures.phone (ExtractedData.Marshal ExtractedData.zero);
             OpPauseConversation "99999999999"]
            fixtures.pausedStore) !! fixtures.phone = Some s' /\
     (s' = PAUSED \/ (PAUSED = ACTIVE /\ s' = PAUSED)) /\
     (PAUSED = PAUSED -> s' = PAUSED)) /\
  UpsertConversation fixtures.pausedStore fixtures.phone = (fixtures.pausedStore, None) /\
  conversations (fst (UpsertConversation fixtures.pausedStore fixtures.phone)) !! fixtures.phone
    = Some PAUSED.
Proof.
  apply (conversation_state_only_pauses _ fixtures.pausedStore fixtures.phone PAUSED).
  vm_compute. reflexivity.
Defined.

(** ** The per-message handler *)

(** The idempotency check: a stored identifier ends the handling at once. *)
Lemma handleMessage_stored
    (cfg : Config.t) (codec : Codec) (env : Env) (w : World) (msg : WAMessage.t)
    (text : WAText.t) :
  textOf msg = Some text ->
  stored (store w) (WAMessage.ID msg) ->
  handleMessage cfg codec env w msg = w.
Proof.
  intros Ht Hs. unfold handleMessage. rewrite Ht.
  rewrite (MessageExists_stored _ _ Hs). reflexivity.
Qed.

(** C4.  A text message whose identifier is already stored leaves the
    world as it is: no row is added, the model gateway is not called and
    nothing is sent. *)
Theorem duplicate_message_is_skipped
    (cfg : Config.t) (codec : Codec) (env : Env) (w : World) (msg : WAMessage.t)
    (text : WAText.t) :
  textOf msg = Some text ->
  stored (store w) (WAMessage.ID msg) ->
  handleMessage cfg codec env w msg = w /\
  messages (store (handleMessage cfg codec env w msg)) = messages (store w) /\
  sent (handleMessage cfg codec env w msg) = sent w.
Proof.
  intros Ht Hs. rewrite (handleMessage_stored cfg codec env w msg text Ht Hs). auto.
Qed.

Lemma duplicate_message_is_skipped_witness :
  handleMessage fixtures.testConfig fixtures.replyCodec fixtures.backendUp
                deliveries.served fixtures.couchMessage = deliveries.served /\
  messages (store (handleMessage fixtures.testConfig fixtures.replyCodec fixtures.backendUp
                                 deliveries.served fixtures.couchMessage))
    = messages (store deliveries.served) /\
  sent (handleMessage fixtures.testConfig fixtures.replyCodec fixtures.backendUp
                      deliveries.served fixtures.couchMessage)
    = sent deliveries.served.
Proof.
  apply (duplicate_message_is_skipped _ _ _ _ _ (WAText.mk "I need a couch removed.")).
  - reflexivity.
  - vm_compute. constructor 1. reflexivity.
Defined.

(** How a text message with a fresh identifier reaches the state check. *)
Lemma handleMessage_fresh
    (cfg : Config.t) (codec : Codec) (env : Env) (w : World) (msg : WAMessage.t)
    (text : WAText.t) (s : Status) :
  textOf msg = Some text ->
  conversations (store w) !! WAMessage.From_ msg = Some s ->
  ~ stored (store w) (WAMessage.ID msg) ->
  let phone := WAMessage.From_ msg in
  let inbound := Message.mk (WAMessage.ID msg) phone "user" (WAText.Body text) in
  let db2 := mkDB (conversations (store w)) (messages (store w) ++ [inbound])
                  (quote_data (store w)) in
  handleMessage cfg codec env w msg =
    match s with
    | PAUSED => sendWhatsApp cfg (with_store w db2) phone pausedReply
    | ACTIVE =>
        let history := fst (GetRecentMessages db2 phone 20) in
        let w3 := emit (with_store w db2)
                       (CallLLM (Config.DeepSeekAPIKey cfg)
                                (llm.request (SystemPrompt env) history)) in
        match llm.Call codec env (Config.DeepSeekAPIKey cfg) history with
        | (None, _) => w3
        | (Some llmResp, _) =>
            let id := assistantMsgID phone (UnixNano env) in
            let db4 := fst (InsertMessage db2
                              (Message.mk id phone "assistant"
                                          (LLMResponse.ReplyToUser llmResp))) in
            let db5 := fst (UpsertQuoteData db4 phone
                              (ExtractedData.Marshal (LLMResponse.ExtractedData llmResp))) in
            let w5 := with_store w3 db5 in
            if String.eqb (LLMResponse.Action llmResp) "handoff" then
              sendWhatsApp cfg (fst (sendSlackHandoff cfg env w5 phone llmResp)) phone
                           (LLMResponse.ReplyToUser llmResp)
            else if String.eqb (LLMResponse.Action llmResp) "schedule" then
              sendWhatsApp cfg w5 phone (LLMResponse.ReplyToUser llmResp +:+ bookingSuffix)
            else sendWhatsApp cfg w5 phone (LLMResponse.ReplyToUser llmResp)
        end
    end.
Proof.
  intros Ht Hc Hf phone inbound db2.
  unfold handleMessage. rewrite Ht.
  rewrite (MessageExists_fresh _ _ Hf).
  rewrite (UpsertConversation_existing _ _ _ Hc).
  rewrite (GetConversationStatus_existing _ _ _ Hc).
  fold phone. fold inbound.
  rewrite (InsertMessage_fresh (store w) inbound s Hf Hc). fold db2.
  destruct s; simpl String.eqb; cbv iota.
  - unfold GetRecentMessages at 1. cbv iota beta.
    destruct (llm.Call codec env (Config.DeepSeekAPIKey cfg) _) as [[llmResp|] e];
      [|reflexivity].
    simpl store.
    destruct (InsertMessage db2 _) as [db4 e4]. simpl fst.
    destruct (UpsertQuoteData db4 _ _) as [db5 e5]. simpl fst.
    reflexivity.
  - reflexivity.
Qed.








(** ** The escalation callback *)

Lemma Contains_unfold (s sub : string) :
  strings.Contains s sub
  = match strings.CutPrefix s sub with
    | Some _ => true
    | None => match s with
              | EmptyString => false
              | String _ s' => strings.Contains s' sub
              end
    end.
Proof. destruct s; reflexivity. Qed.

Lemma Contains_prefix (sub post : string) : strings.Contains (sub +:+ post) sub = true.
Proof. rewrite Contains_unfold, CutPrefix_app. reflexivity. Qed.

Lemma Contains_middle (pre sub post : string) :
  strings.Contains (pre +:+ sub +:+ post) sub = true.
Proof.
  induction pre as [|a pre IH].
  - exact (Contains_prefix sub post).
  - change (String a pre +:+ sub +:+ post) with (String a (pre +:+ sub +:+ post)).
    rewrite Contains_unfold. destruct (strings.CutPrefix _ sub); [reflexivity | exact IH].
Qed.

(** A verified callback whose first action is the take-over, by what the
    driver and the store answer. *)
Lemma take_over_by_cases
    (cfg : Config.t) (codec : Codec) (now : Z) (driver : fallible.Driver) (db : DB)
    (r : Request) (rawBody : string) (formVals : gmap string (list string))
    (slackPayload : SlackInteractivePayload.t) (action : SlackAction.t)
    (rest : list SlackAction.t) :
  ReadAll r = Some rawBody ->
  verifySlackSignature now (Config.SlackSigningSecret cfg)
                       (Header_Get r "X-Slack-Request-Timestamp") rawBody
                       (Header_Get r "X-Slack-Signature") = true ->
  ParseQuery codec rawBody = Some formVals ->
  Values_Get formVals "payload" <> "" ->
  UnmarshalSlackPayload codec (Values_Get formVals "payload") = Some slackPayload ->
  SlackInteractivePayload.Actions slackPayload = action :: rest ->
  SlackAction.ActionID action = "take_over_chat" ->
  let phone := SlackAction.Value action in
  let username := SlackUser.Username (SlackInteractivePayload.User slackPayload) in
  let json := Header_Set NewRecorder "Content-Type" "application/json" in
  fallible.HandleSlackInteractive cfg codec now driver db r =
    match fallible.fault driver 0 with
    | Some _ => (Write json (slackReply notFoundText), db)
    | None =>
        match conversations db !! phone with
        | None => (Write json (slackReply notFoundText), db)
        | Some PAUSED => (Write json (slackReply alreadyPausedText), db)
        | Some ACTIVE =>
            match fallible.fault driver 1 with
            | Some _ => (http_Error NewRecorder "internal error" 500, db)
            | None =>
                (Write json (slackReply (pausedByText username)),
                 mkDB (alter (fun _ => PAUSED) phone (conversations db)) (messages db)
                      (quote_data db))
            end
        end
    end.
Proof.
  intros Hbody Hsig Hform Hpayload Hjson Hactions Haction phone username json.
  unfold fallible.HandleSlackInteractive.
  rewrite Hbody, Hsig. simpl negb. cbv iota.
  rewrite Hform.
  apply String.eqb_neq in Hpayload. rewrite Hpayload.
  rewrite Hjson, Hactions, Haction. simpl negb. cbv iota.
  fold phone. fold username.
  unfold fallible.GetConversationStatus, fallible.PauseConversation.
  destruct (fallible.fault driver 0) as [e0|]; [reflexivity|].
  unfold GetConversationStatus.
  destruct (conversations db !! phone) as [[|]|]; [|reflexivity|reflexivity].
  simpl String.eqb. cbv iota.
  destruct (fallible.fault driver 1) as [e1|]; reflexivity.
Qed.

(** C5, as stated, fails in two ways.  The conversation exists and is
    ACTIVE, the callback is verified and its first action is the
    take-over, but the driver finds the database locked at the UPDATE: the
    answer is 500 and the conversation stays ACTIVE.  And a verified
    callback that carries the take-over as its second action is answered
    200 with an empty body, the conversation staying ACTIVE: the handler
    reads the first action only. *)
Lemma take_over_not_always_paused :
  (conversations fixtures.activeStore !! fixtures.phone = Some ACTIVE /\
   verifySlackSignature 1700000000 "test-slack-secret"
     (Header_Get callbacks.takeOverRequest "X-Slack-Request-Timestamp") callbacks.takeOverBody
     (Header_Get callbacks.takeOverRequest "X-Slack-Signature") = true /\
   SlackInteractivePayload.Actions callbacks.takeOver
     = [SlackAction.mk "take_over_chat" "14165551234"] /\
   Code (fst (fallible.HandleSlackInteractive
                fixtures.testConfig callbacks.slackCodec 1700000000 (fixtures.lockedAt 1)
                fixtures.activeStore callbacks.takeOverRequest)) = Some 500 /\
   Written (fst (fallible.HandleSlackInteractive
                   fixtures.testConfig callbacks.slackCodec 1700000000 (fixtures.lockedAt 1)
                   fixtures.activeStore callbacks.takeOverRequest))
     = [Text ("internal error" +:+ newline)] /\
   conversations (snd (fallible.HandleSlackInteractive
                         fixtures.testConfig callbacks.slackCodec 1700000000
                         (fixtures.lockedAt 1)
                         fixtures.activeStore callbacks.takeOverRequest))
     !! fixtures.phone = Some ACTIVE) /\
  (verifySlackSignature 1700000000 "test-slack-secret"
     (Header_Get callbacks.secondActionRequest "X-Slack-Request-Timestamp")
     callbacks.secondActionBody
     (Header_Get callbacks.secondActionRequest "X-Slack-Signature") = true /\
   SlackInteractivePayload.Actions callbacks.secondAction
     = [SlackAction.mk "view_thread" "14165551234";
        SlackAction.mk "take_over_chat" "14165551234"] /\
   Code (fst (fallible.HandleSlackInteractive
                fixtures.testConfig callbacks.secondActionCodec 1700000000 fallible.working
                fixtures.activeStore callbacks.secondActionRequest)) = Some 200 /\
   Written (fst (fallible.HandleSlackInteractive
                   fixtures.testConfig callbacks.secondActionCodec 1700000000
                   fallible.working
                   fixtures.activeStore callbacks.secondActionRequest)) = [] /\
   conversations (snd (fallible.HandleSlackInteractive
                         fixtures.testConfig callbacks.secondActionCodec 1700000000
                         fallible.working
                         fixtures.activeStore callbacks.secondActionRequest))
     !! fixtures.phone = Some ACTIVE).
Proof.
  assert (verifySlackSignature 1700000000 "test-slack-secret"
            (Header_Get callbacks.takeOverRequest "X-Slack-Request-Timestamp")
            callbacks.takeOverBody
            (Header_Get callbacks.takeOverRequest "X-Slack-Signature") = true) as Hsig1
    by (vm_compute; reflexivity).
  assert (verifySlackSignature 1700000000 "test-slack-secret"
            (Header_Get callbacks.secondActionRequest "X-Slack-Request-Timestamp")
            callbacks.secondActionBody
            (Header_Get callbacks.secondActionRequest "X-Slack-Signature") = true) as Hsig2
    by (vm_compute; reflexivity).
  assert (fallible.HandleSlackInteractive
            fixtures.testConfig callbacks.slackCodec 1700000000 (fixtures.lockedAt 1)
            fixtures.activeStore callbacks.takeOverRequest
          = (http_Error NewRecorder "internal error" 500, fixtures.activeStore)) as E1.
  { rewrite (take_over_by_cases
               fixtures.testConfig callbacks.slackCodec 1700000000 (fixtures.lockedAt 1)
               fixtures.activeStore callbacks.takeOverRequest callbacks.takeOverBody
               {[ "payload" := [callbacks.takeOverJSON] ]} callbacks.takeOver
               (SlackAction.mk "take_over_chat" fixtures.phone) []
               eq_refl Hsig1 eq_refl ltac:(vm_compute; discriminate) eq_refl eq_refl eq_refl).
    reflexivity. }
  assert (fallible.HandleSlackInteractive
            fixtures.testConfig callbacks.secondActionCodec 1700000000 fallible.working
            fixtures.activeStore callbacks.secondActionRequest
          = (WriteHeader NewRecorder 200, fixtures.activeStore)) as E2.
  { unfold fallible.HandleSlackInteractive.
    change (ReadAll callbacks.secondActionRequest) with (Some callbacks.secondActionBody).
    cbv iota zeta.
    change (Config.SlackSigningSecret fixtures.testConfig) with "test-slack-secret".
    rewrite Hsig2. reflexivity. }
  rewrite E1, E2.
  repeat apply conj; try assumption; reflexivity.
Qed.

(** C5, amended.  A callback that passes the signature check and whose
    first action is the take-over is answered by what the store tells of
    the conversation it names.  When the state cannot be read, the
    conversation being unknown or the driver failing: 200 with the "not
    found" warning and no change.  When it is PAUSED: 200 with the "already
    paused" note and no change.  Else the handler writes the pause: when
    the store takes it the conversation becomes PAUSED, nothing else
    changes, and the answer is 200 with a confirmation that names the
    operator; when the driver fails the answer is 500 and nothing changes. *)
Theorem take_over_callback_outcomes
    (cfg : Config.t) (codec : Codec) (now : Z) (driver : fallible.Driver) (db : DB)
    (r : Request) (rawBody : string) (formVals : gmap string (list string))
    (slackPayload : SlackInteractivePayload.t) (action : SlackAction.t)
    (rest : list SlackAction.t) :
  ReadAll r = Some rawBody ->
  verifySlackSignature now (Config.SlackSigningSecret cfg)
                       (Header_Get r "X-Slack-Request-Timestamp") rawBody
                       (Header_Get r "X-Slack-Signature") = true ->
  ParseQuery codec rawBody = Some formVals ->
  Values_Get formVals "payload" <> "" ->
  UnmarshalSlackPayload codec (Values_Get formVals "payload") = Some slackPayload ->
  SlackInteractivePayload.Actions slackPayload = action :: rest ->
  SlackAction.ActionID action = "take_over_chat" ->
  let phone := SlackAction.Value action in
  let username := SlackUser.Username (SlackInteractivePayload.User slackPayload) in
  let resp := fst (fallible.HandleSlackInteractive cfg codec now driver db r) in
  let db' := snd (fallible.HandleSlackInteractive cfg codec now driver db r) in
  let answered text :=
    Code resp = Some 200 /\
    Header resp !! "Content-Type" = Some "application/json" /\
    Written resp = [Json [("replace_original", JBool true); ("text", JString text)]] in
  let state :=
    match fallible.fault driver 0 with
    | Some _ => None
    | None => conversations db !! phone
    end in
  match state with
  | None =>
      answered "⚠️ Conversation not found." /\
      strings.Contains "⚠️ Conversation not found." "not found" = true /\
      db' = db
  | Some PAUSED =>
      answered "ℹ️ Chat was already paused." /\
      strings.Contains "ℹ️ Chat was already paused." "already paused" = true /\
      db' = db
  | Some ACTIVE =>
      match fallible.fault driver 1 with
      | None =>
          answered ("✅ Chat paused. " +:+ username +:+ " has taken over the conversation.") /\
          strings.Contains
            ("✅ Chat paused. " +:+ username +:+ " has taken over the conversation.")
            username = true /\
          conversations db' !! phone = Some PAUSED /\
          (forall q, q <> phone -> conversations db' !! q = conversations db !! q) /\
          messages db' = messages db /\
          quote_data db' = quote_data db
      | Some _ =>
          Code resp = Some 500 /\
          Written resp = [Text ("internal error" +:+ newline)] /\
          db' = db
      end
  end.
Proof.
  intros Hbody Hsig Hform Hpayload Hjson Hactions Haction phone username resp db' answered
         state.
  subst resp db' answered state.
  rewrite (take_over_by_cases cfg codec now driver db r rawBody formVals slackPayload
             action rest Hbody Hsig Hform Hpayload Hjson Hactions Haction).
  cbv zeta. fold phone. fold username.
  destruct (fallible.fault driver 0) as [e0|].
  { simpl. repeat apply conj; reflexivity. }
  destruct (conversations db !! phone) as [[|]|] eqn:Hc.
  - (* ACTIVE *)
    destruct (fallible.fault driver 1) as [e1|].
    + simpl. repeat apply conj; reflexivity.
    + simpl. repeat apply conj; try reflexivity.
      * apply (Contains_middle "✅ Chat paused. " username).
      * rewrite lookup_alter_eq, Hc. reflexivity.
      * intros q Hq. apply lookup_alter_ne. congruence.
  - (* PAUSED *)
    simpl. repeat apply conj; reflexivity.
  - (* unknown *)
    simpl. repeat apply conj; reflexivity.
Qed.

(** TestHandleSlackInteractive_TakeOver_PausesConversation. *)
Lemma take_over_callback_outcomes_witness :
  Code (fst (fallible.HandleSlackInteractive
               fixtures.testConfig callbacks.slackCodec 1700000000 fallible.working
               fixtures.activeStore callbacks.takeOverRequest))
    = Some 200 /\
  Written (fst (fallible.HandleSlackInteractive
                  fixtures.testConfig callbacks.slackCodec 1700000000 fallible.working
                  fixtures.activeStore callbacks.takeOverRequest))
    = [Json [("replace_original", JBool true);
             ("text", JString "✅ Chat paused. adriantest has taken over the conversation.")]] /\
  conversations (snd (fallible.HandleSlackInteractive
                        fixtures.testConfig callbacks.slackCodec 1700000000 fallible.working
                        fixtures.activeStore callbacks.takeOverRequest))
    !! fixtures.phone = Some PAUSED.
Proof.
  destruct (take_over_callback_outcomes
              fixtures.testConfig callbacks.slackCodec 1700000000 fallible.working
              fixtures.activeStore callbacks.takeOverRequest callbacks.takeOverBody
              {[ "payload" := [callbacks.takeOverJSON] ]} callbacks.takeOver
              (SlackAction.mk "take_over_chat" fixtures.phone) [])
    as ((Hcode & _ & Hw) & _ & Hp & _).
  - reflexivity.
  - vm_compute. reflexivity.
  - reflexivity.
  - vm_compute. discriminate.
  - reflexivity.
  - reflexivity.
  - reflexivity.
  - split; [exact Hcode|]. split; [exact Hw | exact Hp].
Defined.

(** ** The inbound callback *)

Lemma fold_left_flat_map {A B C} (f : A -> C -> A) (g : B -> list C) (l : list B) :
  forall a, fold_left f (flat_map g l) a = fold_left (fun a x => fold_left f (g x) a) l a.
Proof.
  induction l as [|x l IH]; intros a; simpl.
  - reflexivity.
  - rewrite fold_left_app. apply IH.
Qed.

Lemma fold_left_pointwise {A B} (f g : A -> B -> A) (l : list B) :
  (forall a x, f a x = g a x) -> forall a, fold_left f l a = fold_left g l a.
Proof.
  intros H. induction l as [|x l IH]; intros a; simpl.
  - reflexivity.
  - rewrite H. apply IH.
Qed.

(** The three loops call the handler on every message of the payload, in order. *)
Lemma loops_handle_each
    (cfg : Config.t) (codec : Codec) (envs : nat -> Env) (w : World) (payload : WAPayload.t) :
  snd (fold_left
         (fun st entry =>
            fold_left
              (fun st change =>
                 fold_left (handleNext cfg codec envs)
                           (WAValue.Messages (WAChange.Value change)) st)
              (WAEntry.Changes entry) st)
         (WAPayload.Entry payload) (O, w))
  = handleEach cfg codec envs w (allMessages payload).
Proof.
  unfold handleEach, allMessages. f_equal.
  rewrite fold_left_flat_map.
  apply fold_left_pointwise. intros st entry.
  rewrite fold_left_flat_map. reflexivity.
Qed.

(** X15.  When the first change of the first entry carries a message, the
    guard lets the payload through and every message of it is handled. *)
Lemma processInbound_handles_each
    (cfg : Config.t) (codec : Codec) (envs : nat -> Env) (w : World) (rawBody : string)
    (payload : WAPayload.t) (entry0 : WAEntry.t) (entries : list WAEntry.t)
    (change0 : WAChange.t) (changes : list WAChange.t)
    (msg0 : WAMessage.t) (msgs : list WAMessage.t) :
  UnmarshalWAPayload codec rawBody = Some payload ->
  WAPayload.Entry payload = entry0 :: entries ->
  WAEntry.Changes entry0 = change0 :: changes ->
  WAValue.Messages (WAChange.Value change0) = msg0 :: msgs ->
  processInbound cfg codec envs w rawBody = handleEach cfg codec envs w (allMessages payload).
Proof.
  intros Hu He Hc Hm. unfold processInbound. rewrite Hu.
  rewrite <- loops_handle_each. rewrite He, Hc, Hm. reflexivity.
Qed.

(** X22.  A payload without any message is dropped. *)
Lemma processInbound_no_message
    (cfg : Config.t) (codec : Codec) (envs : nat -> Env) (w : World) (rawBody : string)
    (payload : WAPayload.t) :
  UnmarshalWAPayload codec rawBody = Some payload ->
  allMessages payload = [] ->
  processInbound cfg codec envs w rawBody = w.
Proof.
  intros Hu Hnone. unfold processInbound. rewrite Hu.
  destruct (WAPayload.Entry payload) as [|entry0 entries] eqn:He; [reflexivity|].
  destruct (WAEntry.Changes entry0) as [|change0 changes] eqn:Hc; [reflexivity|].
  destruct (WAValue.Messages (WAChange.Value change0)) as [|msg0 msgs] eqn:Hm; [reflexivity|].
  rewrite <- He, loops_handle_each, Hnone. reflexivity.
Qed.

(** C1.  The code at the failing input: the payload holds the couch
    message in the second change of its entry, the first change holds
    none; the guard reads the first change only and returns, and the
    handler, which would have stored the message and answered, is not
    called. *)
Theorem processInbound_drops_messages_behind_empty_change :
  UnmarshalWAPayload callbacks.batchedCodec callbacks.batchedBody = Some callbacks.batched /\
  allMessages callbacks.batched = [fixtures.couchMessage] /\
  processInbound fixtures.testConfig callbacks.batchedCodec (fun _ => fixtures.backendUp)
                 fixtures.emptyWorld callbacks.batchedBody = fixtures.emptyWorld /\
  sent (handleEach fixtures.testConfig callbacks.batchedCodec (fun _ => fixtures.backendUp)
                   fixtures.emptyWorld (allMessages callbacks.batched))
    = [CallLLM "test-deepseek-key"
               [LLMMessage.mk "system" "You are a test assistant.";
                LLMMessage.mk "user" "I need a couch removed."];
       SendWhatsApp fixtures.phone "Hi! What's the address?"].
Proof. vm_compute. repeat split. Qed.

(** ** Redelivery *)

Lemma stored_app (db : DB) (id : string) (rows : list Message.t) :
  stored db id ->
  stored (mkDB (conversations db) (messages db ++ rows) (quote_data db)) id.
Proof. unfold stored. simpl. rewrite Exists_app. auto. Qed.

Lemma InsertMessage_keeps (db : DB) (m : Message.t) (id : string) :
  stored db id -> stored (fst (InsertMessage db m)) id.
Proof.
  intros H. unfold InsertMessage.
  destruct (bool_decide _); [exact H|].
  destruct (conversations db !! Message.ConversationID m); [|exact H].
  simpl. apply (stored_app db id [m] H).
Qed.

Lemma UpsertQuoteData_keeps (db : DB) (c : string) (j : JSON) (id : string) :
  stored db id -> stored (fst (UpsertQuoteData db c j)) id.
Proof.
  intros H. unfold UpsertQuoteData.
  destruct (conversations db !! c); exact H.
Qed.

(** The row the handler makes sure of: the conversation as it was, or a
    new ACTIVE one; the messages are not touched. *)
Lemma UpsertConversation_result (db : DB) (phone : string) :
  UpsertConversation db phone = (fst (UpsertConversation db phone), None) /\
  messages (fst (UpsertConversation db phone)) = messages db /\
  exists s, conversations (fst (UpsertConversation db phone)) !! phone = Some s.
Proof.
  unfold UpsertConversation.
  destruct (conversations db !! phone) as [s|] eqn:E; simpl.
  - eauto.
  - repeat split. exists ACTIVE. apply lookup_insert_eq.
Qed.

(** A fresh text message sees the same handling whether its conversation
    row is created by the handler or was there before. *)
Lemma handleMessage_upserted
    (cfg : Config.t) (codec : Codec) (env : Env) (w : World) (msg : WAMessage.t)
    (text : WAText.t) :
  textOf msg = Some text ->
  ~ stored (store w) (WAMessage.ID msg) ->
  handleMessage cfg codec env w msg
  = handleMessage cfg codec env
      (with_store w (fst (UpsertConversation (store w) (WAMessage.From_ msg)))) msg.
Proof.
  intros Ht Hf.
  destruct (UpsertConversation_result (store w) (WAMessage.From_ msg))
    as (Hup & Hm & s & Hc).
  set (db1 := fst (UpsertConversation (store w) (WAMessage.From_ msg))) in *.
  assert (~ stored db1 (WAMessage.ID msg)) as Hf1
    by (unfold stored; rewrite Hm; exact Hf).
  unfold handleMessage. rewrite Ht.
  rewrite (MessageExists_fresh _ _ Hf). simpl store.
  rewrite (MessageExists_fresh _ _ Hf1).
  rewrite Hup, (UpsertConversation_existing _ _ _ Hc). reflexivity.
Qed.

(** Whatever the state of the conversation and the answer of the model,
    a text message is in the store once it has been handled. *)
Lemma handleMessage_records
    (cfg : Config.t) (codec : Codec) (env : Env) (w : World) (msg : WAMessage.t)
    (text : WAText.t) :
  textOf msg = Some text ->
  stored (store (handleMessage cfg codec env w msg)) (WAMessage.ID msg).
Proof.
  intros Ht.
  destruct (decide (stored (store w) (WAMessage.ID msg))) as [Hs|Hf].
  - rewrite (handleMessage_stored cfg codec env w msg text Ht Hs). exact Hs.
  - rewrite (handleMessage_upserted cfg codec env w msg text Ht Hf).
    destruct (UpsertConversation_result (store w) (WAMessage.From_ msg))
      as (_ & Hm & s & Hc).
    set (w1 := with_store w (fst (UpsertConversation (store w) (WAMessage.From_ msg)))).
    assert (~ stored (store w1) (WAMessage.ID msg)) as Hf1
      by (unfold stored; simpl; rewrite Hm; exact Hf).
    rewrite (handleMessage_fresh cfg codec env w1 msg text s Ht Hc Hf1).
    set (inbound := Message.mk (WAMessage.ID msg) (WAMessage.From_ msg) "user"
                               (WAText.Body text)).
    set (db2 := mkDB (conversations (store w1)) (messages (store w1) ++ [inbound])
                     (quote_data (store w1))).
    assert (stored db2 (WAMessage.ID msg)) as H2.
    { unfold stored, db2. simpl. rewrite Exists_app. right. constructor 1. reflexivity. }
    destruct s.
    + cbv zeta.
      destruct (llm.Call codec env (Config.DeepSeekAPIKey cfg) _) as [[llmResp|] e].
      * assert (stored
                  (fst (UpsertQuoteData
                          (fst (InsertMessage db2
                                  (Message.mk (assistantMsgID (WAMessage.From_ msg) (UnixNano env))
                                              (WAMessage.From_ msg) "assistant"
                                              (LLMResponse.ReplyToUser llmResp))))
                          (WAMessage.From_ msg)
                          (ExtractedData.Marshal (LLMResponse.ExtractedData llmResp))))
                  (WAMessage.ID msg)) as H5
          by (apply UpsertQuoteData_keeps, InsertMessage_keeps; exact H2).
        destruct (String.eqb (LLMResponse.Action llmResp) "handoff");
          [|destruct (String.eqb (LLMResponse.Action llmResp) "schedule")]; exact H5.
      * exact H2.
    + exact H2.
Qed.

(** ** The webhook endpoint *)

(** A body signed with the app secret is acknowledged with 200 and handed
    to [processInbound]. *)
Lemma HandleWhatsAppMessage_verified
    (cfg : Config.t) (codec : Codec) (envs : nat -> Env) (w : World) (r : Request)
    (rawBody : string) :
  ReadAll r = Some rawBody ->
  Header_Get r "X-Hub-Signature-256" = metaSignature (Config.MetaAppSecret cfg) rawBody ->
  HandleWhatsAppMessage cfg codec envs w r
  = (WriteHeader NewRecorder 200, processInbound cfg codec envs w rawBody).
Proof.
  intros Hb Hs. unfold HandleWhatsAppMessage.
  rewrite Hb, Hs, verifyMetaSignature_valid. reflexivity.
Qed.

(** A missing or wrong signature is answered with 403 and nothing is processed. *)
Lemma HandleWhatsAppMessage_forbidden
    (cfg : Config.t) (codec : Codec) (envs : nat -> Env) (w : World) (r : Request)
    (rawBody : string) :
  ReadAll r = Some rawBody ->
  verifyMetaSignature (Config.MetaAppSecret cfg) rawBody (Header_Get r "X-Hub-Signature-256")
    = false ->
  Code (fst (HandleWhatsAppMessage cfg codec envs w r)) = Some 403 /\
  snd (HandleWhatsAppMessage cfg codec envs w r) = w.
Proof.
  intros Hb Hs. unfold HandleWhatsAppMessage. rewrite Hb, Hs. simpl. auto.
Qed.

(** * More of the code *)

(** ** The inbound signature, exactly *)

Lemma CutPrefix_Some (p : string) : forall s r,
  strings.CutPrefix s p = Some r -> s = p +:+ r.
Proof.
  induction p as [|a p IH]; intros s r H; simpl in H.
  - injection H as <-. reflexivity.
  - destruct s as [|b s]; [discriminate|].
    destruct (Ascii.eqb b a) eqn:E; [|discriminate].
    apply Ascii.eqb_eq in E. subst b.
    change (String a p +:+ r) with (String a (p +:+ r)). f_equal. apply IH. exact H.
Qed.

Lemma hexdigit_not_s (b : Z) :
  0 <= b < 256 -> Ascii.eqb (crypto.hexdigit (b / 16)) "s" = false.
Proof.
  intros Hb.
  assert (0 <= b / 16 < 16) as Hd
    by (split; [apply Z.div_pos; lia | apply Z.div_lt_upper_bound; lia]).
  assert (exists n : nat, (n < 16)%nat /\ b / 16 = Z.of_nat n) as (n & Hn & ->)
    by (exists (Z.to_nat (b / 16)); lia).
  do 16 (destruct n as [|n]; [reflexivity|]). lia.
Qed.

Lemma sum256_head (bs : list Z) :
  exists b rest, crypto.sum256 bs = b :: rest /\ 0 <= b < 256.
Proof.
  eexists _, _. split; [reflexivity|].
  apply Z.mod_pos_bound. lia.
Qed.

Lemma hex_sum256_no_prefix (bs : list Z) :
  strings.CutPrefix (crypto.hex (crypto.sum256 bs)) "sha256=" = None /\
  crypto.hex (crypto.sum256 bs) <> "".
Proof.
  destruct (sum256_head bs) as (b & rest & E & Hb).
  rewrite E. simpl crypto.hex. split; [|discriminate].
  simpl strings.CutPrefix. rewrite (hexdigit_not_s b Hb). reflexivity.
Qed.

(** The hash in hexadecimal never starts with the prefix of the header. *)
Lemma mac_hex_no_prefix (secret body : string) :
  strings.CutPrefix (crypto.mac_hex secret body) "sha256=" = None /\
  crypto.mac_hex secret body <> "".
Proof.
  unfold crypto.mac_hex, crypto.hmac_sha256. cbv zeta. apply hex_sum256_no_prefix.
Qed.

(** X1.  The inbound check accepts exactly two headers: the keyed hash of
    the body in lower-case hexadecimal behind the prefix "sha256=", and the
    same hash without the prefix. *)
Theorem verifyMetaSignature_accepts_exactly (secret body header : string) :
  verifyMetaSignature secret body header = true <->
  header = metaSignature secret body \/ header = crypto.mac_hex secret body.
Proof.
  destruct (mac_hex_no_prefix secret body) as [Hcut Hne].
  split.
  - unfold verifyMetaSignature, hmac_Equal, metaSignature.
    destruct (String.eqb header ""); [discriminate|].
    intros H. apply String.eqb_eq in H.
    unfold strings.TrimPrefix in H.
    destruct (strings.CutPrefix header "sha256=") as [r|] eqn:E.
    + left. rewrite H. apply (CutPrefix_Some _ _ _ E).
    + right. symmetry. exact H.
  - intros [-> | ->].
    + apply verifyMetaSignature_valid.
    + unfold verifyMetaSignature, hmac_Equal, strings.TrimPrefix.
      rewrite Hcut. apply String.eqb_neq in Hne. rewrite Hne.
      apply String.eqb_refl.
Qed.

(** TestVerifySlackSignature_ReplayAttack: the timestamp is 400 seconds old. *)
Lemma verifySlackSignature_stale_witness :
  verifySlackSignature 1700000000 "test-slack-secret" "1699999600" "payload=test"
    (slackSignature "test-slack-secret" "1699999600" "payload=test") = false.
Proof.
  apply (verifySlackSignature_stale 1700000000 1699999600).
  - reflexivity.
  - lia.
Defined.

(** ** The store, operation by operation *)

Lemma stored_iff (db : DB) (id : string) :
  stored db id <-> In id (map Message.ID (messages db)).
Proof.
  unfold stored. rewrite Exists_exists, in_map_iff. split.
  - intros (r & Hr & E). exists r. split; [exact E|]. apply list_elem_of_In. exact Hr.
  - intros (r & E & Hr). exists r. split; [|exact E]. apply list_elem_of_In. exact Hr.
Qed.

(** X2.  [InsertMessage] succeeds exactly when the identifier is new and
    the conversation exists; then [MessageExists] finds the identifier and
    the row is the last of the table; a refused insert leaves the store as
    it was. *)
Theorem InsertMessage_outcome (db : DB) (m : Message.t) :
  (snd (InsertMessage db m) = None <->
   ~ stored db (Message.ID m) /\ is_Some (conversations db !! Message.ConversationID m)) /\
  (snd (InsertMessage db m) = None ->
   MessageExists (fst (InsertMessage db m)) (Message.ID m) = (true, None) /\
   messages (fst (InsertMessage db m)) = messages db ++ [m]) /\
  (snd (InsertMessage db m) <> None -> fst (InsertMessage db m) = db).
Proof.
  unfold InsertMessage.
  destruct (bool_decide (stored db (Message.ID m))) eqn:Es.
  - apply bool_decide_eq_true in Es. simpl. repeat split; try discriminate.
    intros [Hf _]. contradiction.
  - apply bool_decide_eq_false in Es.
    destruct (conversations db !! Message.ConversationID m) as [s|] eqn:Ec; simpl.
    + repeat split; eauto.
      * apply MessageExists_stored. unfold stored. simpl.
        rewrite Exists_app. right. constructor 1. reflexivity.
      * intros H. contradiction.
    + repeat split; try discriminate.
      intros [_ [s Hs]]. discriminate.
Qed.

Lemma InsertMessage_orphan (db : DB) (m : Message.t) :
  ~ stored db (Message.ID m) ->
  conversations db !! Message.ConversationID m = None ->
  InsertMessage db m = (db, Some "FOREIGN KEY constraint failed").
Proof.
  intros Hf Hc. unfold InsertMessage.
  rewrite (proj2 (bool_decide_eq_false _) Hf), Hc. reflexivity.
Qed.

(** X3.  Inserting the same message a second time is always refused and
    changes nothing (TestInsertMessage_DuplicateID_Errors), whether the
    first insert went through or not. *)
Theorem InsertMessage_again_refused (db : DB) (m : Message.t) :
  snd (InsertMessage (fst (InsertMessage db m)) m) <> None /\
  fst (InsertMessage (fst (InsertMessage db m)) m) = fst (InsertMessage db m).
Proof.
  destruct (decide (stored db (Message.ID m))) as [Hs|Hf].
  - destruct (InsertMessage_duplicate db m Hs) as [e E].
    rewrite E. simpl. rewrite E. simpl. split; [discriminate | reflexivity].
  - destruct (conversations db !! Message.ConversationID m) as [s|] eqn:Ec.
    + rewrite (InsertMessage_fresh db m s Hf Ec). simpl.
      destruct (InsertMessage_duplicate
                  (mkDB (conversations db) (messages db ++ [m]) (quote_data db)) m)
        as [e E].
      { unfold stored. simpl. rewrite Exists_app. right. constructor 1. reflexivity. }
      rewrite E. simpl. split; [discriminate | reflexivity].
    + rewrite (InsertMessage_orphan db m Hf Ec). simpl.
      rewrite (InsertMessage_orphan db m Hf Ec). simpl. split; [discriminate | reflexivity].
Qed.




Lemma UpsertQuoteData_existing (db : DB) (c : string) (j : JSON) (s : Status) :
  conversations db !! c = Some s ->
  UpsertQuoteData db c j
  = (mkDB (conversations db) (messages db) (<[c := j]> (quote_data db)), None).
Proof. intros H. unfold UpsertQuoteData. rewrite H. reflexivity. Qed.

Lemma UpsertQuoteData_unknown (db : DB) (c : string) (j : JSON) :
  conversations db !! c = None ->
  UpsertQuoteData db c j = (db, Some "FOREIGN KEY constraint failed").
Proof. intros H. unfold UpsertQuoteData. rewrite H. reflexivity. Qed.

(** X5.  [UpsertQuoteData] keeps the last value written for a
    conversation and touches no other row; for a conversation that does
    not exist it fails and writes nothing. *)
Theorem UpsertQuoteData_last_write_wins
    (db : DB) (conversationID : string) (first second : JSON) :
  let db1 := fst (UpsertQuoteData db conversationID first) in
  let db2 := fst (UpsertQuoteData db1 conversationID second) in
  match conversations db !! conversationID with
  | Some _ =>
      snd (UpsertQuoteData db1 conversationID second) = None /\
      quote_data db2 !! conversationID = Some second /\
      (forall c, c <> conversationID -> quote_data db2 !! c = quote_data db !! c) /\
      conversations db2 = conversations db /\ messages db2 = messages db
  | None =>
      snd (UpsertQuoteData db conversationID first) <> None /\ db2 = db
  end.
Proof.
  intros db1 db2. subst db2 db1.
  destruct (conversations db !! conversationID) as [s|] eqn:Ec.
  - rewrite (UpsertQuoteData_existing db _ first s Ec). simpl.
    rewrite (UpsertQuoteData_existing _ _ second s) by exact Ec. simpl.
    repeat split.
    + apply lookup_insert_eq.
    + intros c Hc. rewrite !lookup_insert_ne by congruence. reflexivity.
  - rewrite (UpsertQuoteData_unknown db _ first Ec). simpl.
    rewrite (UpsertQuoteData_unknown db _ second Ec). simpl.
    split; [discriminate | reflexivity].
Qed.

(** X6.  No constraint refuses [UpsertConversation]; it creates the conversation
    only when it is absent, then ACTIVE: afterwards the state reads without
    error and is ACTIVE for a new conversation, the one it was for an
    existing one; a second call changes nothing; no other row of the store
    is touched. *)
Theorem UpsertConversation_creates_if_absent (db : DB) (phoneNumber : string) :
  let db' := fst (UpsertConversation db phoneNumber) in
  snd (UpsertConversation db phoneNumber) = None /\
  GetConversationStatus db' phoneNumber
    = (status_text (default ACTIVE (conversations db !! phoneNumber)), None) /\
  UpsertConversation db' phoneNumber = (db', None) /\
  (forall q, q <> phoneNumber -> conversations db' !! q = conversations db !! q) /\
  messages db' = messages db /\ quote_data db' = quote_data db.
Proof.
  intros db'. subst db'.
  destruct (conversations db !! phoneNumber) as [s|] eqn:E.
  - rewrite (UpsertConversation_existing db _ s E). simpl.
    rewrite (GetConversationStatus_existing db _ s E).
    rewrite (UpsertConversation_existing db _ s E). repeat split.
  - assert (UpsertConversation db phoneNumber
            = (mkDB (<[phoneNumber := ACTIVE]> (conversations db)) (messages db)
                    (quote_data db), None)) as ->
      by (unfold UpsertConversation; rewrite E; reflexivity).
    simpl. repeat split.
    + unfold GetConversationStatus. simpl. rewrite lookup_insert_eq. reflexivity.
    + apply (UpsertConversation_existing _ _ ACTIVE). simpl. apply lookup_insert_eq.
    + intros q Hq. apply lookup_insert_ne. congruence.
Qed.

(** X7.  No constraint refuses [PauseConversation] and it never creates a row: an
    unknown identifier stays unknown (its state still cannot be read), a
    known one reads PAUSED afterwards; a second call changes nothing, and
    no other row of the store is touched. *)
Theorem PauseConversation_effect (db : DB) (phoneNumber : string) :
  let db' := fst (PauseConversation db phoneNumber) in
  snd (PauseConversation db phoneNumber) = None /\
  GetConversationStatus db' phoneNumber
    = match conversations db !! phoneNumber with
      | Some _ => ("PAUSED", None)
      | None => ("", Some "sql: no rows in result set")
      end /\
  fst (PauseConversation db' phoneNumber) = db' /\
  (forall q, q <> phoneNumber -> conversations db' !! q = conversations db !! q) /\
  messages db' = messages db /\ quote_data db' = quote_data db.
Proof.
  intros db'. subst db'. simpl. repeat split.
  - unfold GetConversationStatus. simpl. rewrite lookup_alter_eq.
    destruct (conversations db !! phoneNumber); reflexivity.
  - f_equal. apply map_eq. intros q.
    destruct (decide (phoneNumber = q)) as [->|Hne].
    + rewrite !lookup_alter_eq. destruct (conversations db !! q); reflexivity.
    + rewrite !lookup_alter_ne by exact Hne. reflexivity.
  - intros q Hq. apply lookup_alter_ne. congruence.
Qed.

(** ** The constraints of the schema hold in every store *)

Lemma wellformed_Init : wellformed Init.
Proof.
  repeat split.
  - constructor.
  - constructor.
  - intros c [j H]. simpl in H. rewrite lookup_empty in H. discriminate.
Qed.

(** A store whose conversations only gain rows or change state keeps the
    two references of the schema. *)
Lemma wellformed_conversations (db : DB) (convs : gmap string Status) :
  (forall c, is_Some (conversations db !! c) -> is_Some (convs !! c)) ->
  wellformed db -> wellformed (mkDB convs (messages db) (quote_data db)).
Proof.
  intros Hgrow (Hnd & Hfk & Hq). repeat split; simpl.
  - exact Hnd.
  - eapply Forall_impl; [exact Hfk|]. intros m Hm. apply Hgrow. exact Hm.
  - intros c Hc. apply Hgrow, Hq. exact Hc.
Qed.

Lemma exec_wellformed (db : DB) (op : Op) : wellformed db -> wellformed (exec db op).
Proof.
  intros Hw. destruct op as [p|p|m|c j]; simpl.
  - unfold UpsertConversation. destruct (conversations db !! p) eqn:E; simpl; [exact Hw|].
    apply wellformed_conversations; [|exact Hw].
    intros c Hc. apply lookup_insert_is_Some'. auto.
  - apply wellformed_conversations; [|exact Hw].
    intros c Hc. apply lookup_alter_is_Some. exact Hc.
  - destruct (decide (stored db (Message.ID m))) as [Hs|Hf].
    + destruct (InsertMessage_duplicate db m Hs) as [e ->]. exact Hw.
    + destruct (conversations db !! Message.ConversationID m) as [s|] eqn:Ec.
      * rewrite (InsertMessage_fresh db m s Hf Ec). simpl.
        destruct Hw as (Hnd & Hfk & Hq). repeat split; simpl.
        -- rewrite map_app. apply NoDup_app. split; [exact Hnd|]. split.
           ++ intros id Hid Hin. apply list_elem_of_In in Hid.
              apply Hf, stored_iff.
              apply list_elem_of_In in Hin. destruct Hin as [<-|[]]. exact Hid.
           ++ apply NoDup_singleton.
        -- apply Forall_app. split; [exact Hfk|].
           constructor; [|constructor]. rewrite Ec. eauto.
        -- exact Hq.
      * rewrite (InsertMessage_orphan db m Hf Ec). exact Hw.
  - destruct (conversations db !! c) as [s|] eqn:Ec.
    + rewrite (UpsertQuoteData_existing db c j s Ec). simpl.
      destruct Hw as (Hnd & Hfk & Hq). repeat split; simpl; [exact Hnd | exact Hfk |].
      intros c' Hc'. apply lookup_insert_is_Some in Hc'.
      destruct Hc' as [<- | [_ Hc']]; [rewrite Ec; eauto | apply Hq; exact Hc'].
    + rewrite (UpsertQuoteData_unknown db c j Ec). exact Hw.
Qed.

Lemma run_wellformed (ops : list Op) : forall db, wellformed db -> wellformed (run ops db).
Proof.
  induction ops as [|op ops IH]; intros db Hw; simpl; [exact Hw|].
  apply IH, exec_wellformed, Hw.
Qed.

(** X8.  Whatever sequence of the four writing operations runs on the
    empty store of [Init], message identifiers stay unique and every
    message and every extracted-data row belongs to a conversation that
    exists. *)
Theorem reachable_store_wellformed (ops : list Op) : wellformed (run ops Init).
Proof. apply run_wellformed, wellformed_Init. Qed.

(** ** What handling a message does to the store *)

Lemma transcript_app (db : DB) (q : string) (rows : list Message.t) :
  transcript (mkDB (conversations db) (messages db ++ rows) (quote_data db)) q
  = transcript db q ++ filter (fun m => Message.ConversationID m = q) rows.
Proof. unfold transcript. simpl. apply filter_app. Qed.

Lemma exec_quiet (phone : string) (db : DB) (op : Op) :
  quiet phone op ->
  (forall q s, conversations db !! q = Some s -> conversations (exec db op) !! q = Some s) /\
  (conversations (exec db op) !! phone = conversations db !! phone \/
   conversations (exec db op) !! phone = Some ACTIVE) /\
  (forall q, q <> phone ->
     conversations (exec db op) !! q = conversations db !! q /\
     quote_data (exec db op) !! q = quote_data db !! q /\
     transcript (exec db op) q = transcript db q) /\
  messages db `prefix_of` messages (exec db op).
Proof.
  intros Hq. destruct op as [p|p|m|c j]; simpl in Hq; [subst p| contradiction | |subst c]; simpl.
  - unfold UpsertConversation. destruct (conversations db !! phone) eqn:E; simpl.
    + repeat split; auto.
    + repeat split; auto.
      * intros q s H. rewrite lookup_insert_ne by congruence. exact H.
      * right. apply lookup_insert_eq.
      * apply lookup_insert_ne. congruence.
  - destruct (decide (stored db (Message.ID m))) as [Hs|Hf].
    { destruct (InsertMessage_duplicate db m Hs) as [e ->]. simpl. repeat split; auto. }
    destruct (conversations db !! Message.ConversationID m) as [s|] eqn:Ec.
    + rewrite (InsertMessage_fresh db m s Hf Ec). simpl. repeat split; auto.
      * rewrite transcript_app. rewrite filter_cons_False by congruence.
        rewrite filter_nil. apply app_nil_r.
      * apply prefix_app_r. reflexivity.
    + rewrite (InsertMessage_orphan db m Hf Ec). simpl. repeat split; auto.
  - unfold UpsertQuoteData. destruct (conversations db !! phone) eqn:E; simpl.
    + repeat split; auto. apply lookup_insert_ne. congruence.
    + repeat split; auto.
Qed.

Lemma run_quiet (phone : string) (ops : list Op) : forall db,
  Forall (quiet phone) ops ->
  (forall q s, conversations db !! q = Some s -> conversations (run ops db) !! q = Some s) /\
  (conversations (run ops db) !! phone = conversations db !! phone \/
   conversations (run ops db) !! phone = Some ACTIVE) /\
  (forall q, q <> phone ->
     conversations (run ops db) !! q = conversations db !! q /\
     quote_data (run ops db) !! q = quote_data db !! q /\
     transcript (run ops db) q = transcript db q) /\
  messages db `prefix_of` messages (run ops db).
Proof.
  induction ops as [|op ops IH]; intros db Hq; simpl.
  - repeat split; auto.
  - inversion Hq as [|? ? Hop Hops]; subst.
    destruct (exec_quiet phone db op Hop) as (H1 & H2 & H3 & H4).
    destruct (IH (exec db op) Hops) as (I1 & I2 & I3 & I4).
    repeat split.
    + intros q s H. apply I1, H1, H.
    + destruct I2 as [I2 | I2]; [|right; exact I2].
      rewrite I2. exact H2.
    + destruct (I3 q H) as (-> & _ & _). apply (H3 q H).
    + destruct (I3 q H) as (_ & -> & _). apply (H3 q H).
    + destruct (I3 q H) as (_ & _ & ->). apply (H3 q H).
    + etransitivity; [exact H4 | exact I4].
Qed.

(** What the handler does to the store is a short run of operations, all
    for the sender's conversation and none of them a pause. *)
Lemma handleMessage_ops
    (cfg : Config.t) (codec : Codec) (env : Env) (w : World) (msg : WAMessage.t) :
  exists ops,
    store (handleMessage cfg codec env w msg) = run ops (store w) /\
    Forall (quiet (WAMessage.From_ msg)) ops.
Proof.
  destruct (textOf msg) as [text|] eqn:Ht.
  2: { exists []. split; [|constructor]. unfold handleMessage. rewrite Ht. reflexivity. }
  destruct (decide (stored (store w) (WAMessage.ID msg))) as [Hs|Hf].
  { exists []. split; [|constructor].
    rewrite (handleMessage_stored cfg codec env w msg text Ht Hs). reflexivity. }
  rewrite (handleMessage_upserted cfg codec env w msg text Ht Hf).
  destruct (UpsertConversation_result (store w) (WAMessage.From_ msg)) as (_ & Hm & s & Hc).
  set (phone := WAMessage.From_ msg) in *.
  set (db1 := fst (UpsertConversation (store w) phone)) in *.
  assert (~ stored db1 (WAMessage.ID msg)) as Hf1
    by (unfold stored; rewrite Hm; exact Hf).
  rewrite (handleMessage_fresh cfg codec env (with_store w db1) msg text s Ht Hc Hf1).
  fold phone. simpl store.
  set (inbound := Message.mk (WAMessage.ID msg) phone "user" (WAText.Body text)).
  assert (mkDB (conversations db1) (messages db1 ++ [inbound]) (quote_data db1)
          = fst (InsertMessage db1 inbound)) as ->
    by (rewrite (InsertMessage_fresh db1 inbound s Hf1 Hc); reflexivity).
  destruct s.
  - cbv zeta.
    destruct (llm.Call codec env (Config.DeepSeekAPIKey cfg) _) as [[llmResp|] e].
    + exists [OpUpsertConversation phone; OpInsertMessage inbound;
              OpInsertMessage (Message.mk (assistantMsgID phone (UnixNano env)) phone
                                          "assistant" (LLMResponse.ReplyToUser llmResp));
              OpUpsertQuoteData phone
                (ExtractedData.Marshal (LLMResponse.ExtractedData llmResp))].
      split; [|repeat constructor].
      destruct (String.eqb (LLMResponse.Action llmResp) "handoff");
        [|destruct (String.eqb (LLMResponse.Action llmResp) "schedule")]; reflexivity.
    + exists [OpUpsertConversation phone; OpInsertMessage inbound].
      split; [reflexivity | repeat constructor].
  - exists [OpUpsertConversation phone; OpInsertMessage inbound].
    split; [reflexivity | repeat constructor].
Qed.

(** X9.  Handling a message of one customer leaves every other
    conversation as it was: its state, its extracted data and its
    transcript. *)
Theorem handleMessage_touches_only_sender
    (cfg : Config.t) (codec : Codec) (env : Env) (w : World) (msg : WAMessage.t)
    (q : string) :
  q <> WAMessage.From_ msg ->
  conversations (store (handleMessage cfg codec env w msg)) !! q
    = conversations (store w) !! q /\
  quote_data (store (handleMessage cfg codec env w msg)) !! q = quote_data (store w) !! q /\
  transcript (store (handleMessage cfg codec env w msg)) q = transcript (store w) q.
Proof.
  intros Hq. destruct (handleMessage_ops cfg codec env w msg) as (ops & -> & Hops).
  destruct (run_quiet _ ops (store w) Hops) as (_ & _ & H & _).
  apply (H q Hq).
Qed.

Lemma handleMessage_touches_only_sender_witness :
  conversations (store (handleMessage fixtures.testConfig fixtures.replyCodec
                                      fixtures.backendUp deliveries.pausedWorld
                                      (WAMessage.mk "14165550000" "wamid.other" "text"
                                                    (Some (WAText.mk "Hello")))))
    !! fixtures.phone = conversations (store deliveries.pausedWorld) !! fixtures.phone /\
  quote_data (store (handleMessage fixtures.testConfig fixtures.replyCodec
                                   fixtures.backendUp deliveries.pausedWorld
                                   (WAMessage.mk "14165550000" "wamid.other" "text"
                                                 (Some (WAText.mk "Hello")))))
    !! fixtures.phone = quote_data (store deliveries.pausedWorld) !! fixtures.phone /\
  transcript (store (handleMessage fixtures.testConfig fixtures.replyCodec
                                   fixtures.backendUp deliveries.pausedWorld
                                   (WAMessage.mk "14165550000" "wamid.other" "text"
                                                 (Some (WAText.mk "Hello")))))
             fixtures.phone
    = transcript (store deliveries.pausedWorld) fixtures.phone.
Proof.
  apply (handleMessage_touches_only_sender
           fixtures.testConfig fixtures.replyCodec fixtures.backendUp deliveries.pausedWorld
           (WAMessage.mk "14165550000" "wamid.other" "text" (Some (WAText.mk "Hello")))
           fixtures.phone).
  discriminate.
Defined.

(** ** The whole inbound pipeline *)

Lemma follows_refl (db : DB) : follows db db.
Proof.
  split; [|split].
  - intros q. left. reflexivity.
  - reflexivity.
  - auto.
Qed.

Lemma follows_trans (db1 db2 db3 : DB) : follows db1 db2 -> follows db2 db3 -> follows db1 db3.
Proof.
  intros (A1 & A2 & A3) (B1 & B2 & B3). split; [|split].
  - intros q. destruct (B1 q) as [-> | [Hn Ha]]; [apply A1|].
    destruct (A1 q) as [E | [E _]]; [|right; auto].
    rewrite Hn in E. right. auto.
  - etransitivity; eassumption.
  - auto.
Qed.

Lemma handleMessage_follows
    (cfg : Config.t) (codec : Codec) (env : Env) (w : World) (msg : WAMessage.t) :
  follows (store w) (store (handleMessage cfg codec env w msg)).
Proof.
  destruct (handleMessage_ops cfg codec env w msg) as (ops & -> & Hops).
  destruct (run_quiet _ ops (store w) Hops) as (H1 & H2 & H3 & H4).
  split; [|split].
  - intros q. destruct (decide (q = WAMessage.From_ msg)) as [->|Hq].
    + destruct H2 as [H2 | H2]; [left; exact H2|].
      destruct (conversations (store w) !! WAMessage.From_ msg) as [s|] eqn:E.
      * left. rewrite (H1 _ _ E). reflexivity.
      * right. auto.
    + left. apply (H3 q Hq).
  - exact H4.
  - apply run_wellformed.
Qed.

Lemma handleEach_follows
    (cfg : Config.t) (codec : Codec) (envs : nat -> Env) (msgs : list WAMessage.t) :
  forall w, follows (store w) (store (handleEach cfg codec envs w msgs)).
Proof.
  unfold handleEach. intros w. generalize O.
  revert w. induction msgs as [|msg msgs IH]; intros w n; simpl.
  - apply follows_refl.
  - eapply follows_trans; [|apply IH]. apply handleMessage_follows.
Qed.

(** [processInbound] returns at once or handles every message of a payload. *)
Lemma processInbound_cases
    (cfg : Config.t) (codec : Codec) (envs : nat -> Env) (w : World) (rawBody : string) :
  processInbound cfg codec envs w rawBody = w \/
  exists payload,
    UnmarshalWAPayload codec rawBody = Some payload /\
    processInbound cfg codec envs w rawBody = handleEach cfg codec envs w (allMessages payload).
Proof.
  unfold processInbound.
  destruct (UnmarshalWAPayload codec rawBody) as [payload|]; [|left; reflexivity].
  destruct (WAPayload.Entry payload) as [|entry0 entries] eqn:He; [left; reflexivity|].
  destruct (WAEntry.Changes entry0) as [|change0 changes] eqn:Hc; [left; reflexivity|].
  destruct (WAValue.Messages (WAChange.Value change0)) as [|msg0 msgs] eqn:Hm;
    [left; reflexivity|].
  right. exists payload. split; [reflexivity|].
  rewrite <- He. apply loops_handle_each.
Qed.

(** X10.  Whatever request reaches POST /whatsapp/webhook, the store
    afterwards follows the store before: no conversation changes state (the
    pipeline never pauses or resumes), a conversation it creates is ACTIVE,
    stored messages are neither changed nor removed, and the constraints of
    the schema are kept. *)
Theorem inbound_pipeline_follows
    (cfg : Config.t) (codec : Codec) (envs : nat -> Env) (w : World) (r : Request) :
  let w' := snd (HandleWhatsAppMessage cfg codec envs w r) in
  (forall q, conversations (store w') !! q = conversations (store w) !! q \/
             (conversations (store w) !! q = None /\
              conversations (store w') !! q = Some ACTIVE)) /\
  messages (store w) `prefix_of` messages (store w') /\
  (wellformed (store w) -> wellformed (store w')).
Proof.
  intros w'. subst w'. change (follows (store w) (store (snd (HandleWhatsAppMessage cfg codec envs w r)))).
  unfold HandleWhatsAppMessage.
  destruct (ReadAll r) as [rawBody|]; [|apply follows_refl].
  destruct (verifyMetaSignature _ _ _); simpl; [|apply follows_refl].
  destruct (processInbound_cases cfg codec envs w rawBody) as [-> | (payload & _ & ->)].
  - apply follows_refl.
  - apply handleEach_follows.
Qed.

(** ** What handling a message sends *)


Lemma active_unless_paused (o : option Status) :
  o <> Some PAUSED -> default ACTIVE o = ACTIVE.
Proof. destruct o as [[|]|]; [reflexivity | contradiction | reflexivity]. Qed.

(** ** The handlers behind a driver that may fail *)

(** With a driver that runs every statement the handlers of [fallible]
    are those of [handlers]. *)
Lemma fallible_handleMessage_working
    (cfg : Config.t) (codec : Codec) (env : Env) (w : World) (msg : WAMessage.t) :
  fallible.handleMessage cfg codec env fallible.working w msg
  = handleMessage cfg codec env w msg.
Proof. reflexivity. Qed.

Lemma fallible_HandleSlackInteractive_working
    (cfg : Config.t) (codec : Codec) (now : Z) (db : DB) (r : Request) :
  fallible.HandleSlackInteractive cfg codec now fallible.working db r
  = HandleSlackInteractive cfg codec now db r.
Proof. reflexivity. Qed.

Lemma with_store_same (w : World) : with_store w (store w) = w.
Proof. destruct w. reflexivity. Qed.

(** A stored identifier ends the handling at the idempotency check,
    whether the driver runs the query or not. *)
Lemma fallible_handleMessage_stored
    (cfg : Config.t) (codec : Codec) (env : Env) (driver : fallible.Driver) (w : World)
    (msg : WAMessage.t) (text : WAText.t) :
  textOf msg = Some text ->
  stored (store w) (WAMessage.ID msg) ->
  fallible.handleMessage cfg codec env driver w msg = w.
Proof.
  intros Ht Hs. unfold fallible.handleMessage, fallible.MessageExists. rewrite Ht.
  destruct (fallible.fault driver 0); [reflexivity|].
  rewrite (MessageExists_stored _ _ Hs). reflexivity.
Qed.

(** A run the driver stops at one of the first three statements. *)
Lemma fallible_handleMessage_stopped
    (cfg : Config.t) (codec : Codec) (env : Env) (driver : fallible.Driver) (w : World)
    (msg : WAMessage.t) (text : WAText.t) :
  textOf msg = Some text ->
  ~ stored (store w) (WAMessage.ID msg) ->
  (is_Some (fallible.fault driver 0) \/ is_Some (fallible.fault driver 1) ->
   fallible.handleMessage cfg codec env driver w msg = w) /\
  (fallible.fault driver 0 = None -> fallible.fault driver 1 = None ->
   is_Some (fallible.fault driver 2) ->
   fallible.handleMessage cfg codec env driver w msg
   = with_store w (fst (UpsertConversation (store w) (WAMessage.From_ msg)))).
Proof.
  intros Ht Hf.
  destruct (UpsertConversation_result (store w) (WAMessage.From_ msg)) as (Hup & _).
  unfold fallible.handleMessage, fallible.MessageExists, fallible.UpsertConversation,
    fallible.GetConversationStatus.
  rewrite Ht. split.
  - intros H. destruct (fallible.fault driver 0) as [e0|]; [reflexivity|].
    destruct H as [[e H]|[e1 H]]; [discriminate|].
    rewrite (MessageExists_fresh _ _ Hf), H. apply with_store_same.
  - intros -> -> [e2 ->]. rewrite (MessageExists_fresh _ _ Hf), Hup. reflexivity.
Qed.

(** A new text message whose run reaches the state check, by the state
    of the conversation and by what the driver reports afterwards. *)
Lemma fallible_handleMessage_new
    (cfg : Config.t) (codec : Codec) (env : Env) (driver : fallible.Driver) (w : World)
    (msg : WAMessage.t) (text : WAText.t) :
  textOf msg = Some text ->
  ~ stored (store w) (WAMessage.ID msg) ->
  fallible.fault driver 0 = None ->
  fallible.fault driver 1 = None ->
  fallible.fault driver 2 = None ->
  let phone := WAMessage.From_ msg in
  let db1 := fst (UpsertConversation (store w) phone) in
  let inbound := Message.mk (WAMessage.ID msg) phone "user" (WAText.Body text) in
  let db2 := mkDB (conversations db1) (messages db1 ++ [inbound]) (quote_data db1) in
  fallible.handleMessage cfg codec env driver w msg =
    if decide (conversations (store w) !! phone = Some PAUSED) then
      sendWhatsApp cfg
        (with_store w (match fallible.fault driver 3 with Some _ => db1 | None => db2 end))
        phone pausedReply
    else
      match fallible.fault driver 3 with
      | Some _ => with_store w db1
      | None =>
      match fallible.fault driver 4 with
      | Some _ => with_store w db2
      | None =>
          let history := fst (GetRecentMessages db2 phone 20) in
          let w3 := emit (with_store w db2)
                         (CallLLM (Config.DeepSeekAPIKey cfg)
                                  (llm.request (SystemPrompt env) history)) in
          match llm.Call codec env (Config.DeepSeekAPIKey cfg) history with
          | (None, _) => w3
          | (Some llmResp, _) =>
              let id := assistantMsgID phone (UnixNano env) in
              let db4 := fst (fallible.InsertMessage (fallible.fault driver 5) db2
                                (Message.mk id phone "assistant"
                                            (LLMResponse.ReplyToUser llmResp))) in
              let db5 := fst (fallible.UpsertQuoteData (fallible.fault driver 6) db4 phone
                                (ExtractedData.Marshal (LLMResponse.ExtractedData llmResp))) in
              let w5 := with_store w3 db5 in
              if String.eqb (LLMResponse.Action llmResp) "handoff" then
                sendWhatsApp cfg (fst (sendSlackHandoff cfg env w5 phone llmResp)) phone
                             (LLMResponse.ReplyToUser llmResp)
              else if String.eqb (LLMResponse.Action llmResp) "schedule" then
                sendWhatsApp cfg w5 phone (LLMResponse.ReplyToUser llmResp +:+ bookingSuffix)
              else sendWhatsApp cfg w5 phone (LLMResponse.ReplyToUser llmResp)
          end
      end end.
Proof.
  intros Ht Hf D0 D1 D2 phone db1 inbound db2.
  destruct (UpsertConversation_result (store w) phone) as (Hup & Hm & s & Hc).
  fold db1 in Hup, Hm, Hc.
  assert (s = default ACTIVE (conversations (store w) !! phone)) as Hs.
  { unfold db1, UpsertConversation in Hc.
    destruct (conversations (store w) !! phone) as [s0|] eqn:E; simpl in Hc.
    - rewrite E in Hc. injection Hc as <-. reflexivity.
    - rewrite lookup_insert_eq in Hc. injection Hc as <-. reflexivity. }
  assert (~ stored db1 (WAMessage.ID msg)) as Hf1 by (unfold stored; rewrite Hm; exact Hf).
  unfold fallible.handleMessage, fallible.MessageExists, fallible.UpsertConversation,
    fallible.GetConversationStatus.
  rewrite Ht, D0, D1, D2. rewrite (MessageExists_fresh _ _ Hf).
  fold phone. rewrite Hup. rewrite (GetConversationStatus_existing _ _ _ Hc).
  fold inbound.
  unfold fallible.InsertMessage at 1 2.
  rewrite (InsertMessage_fresh db1 inbound s Hf1 Hc). fold db2.
  destruct (decide (conversations (store w) !! phone = Some PAUSED)) as [Hp|Hp].
  - rewrite Hp in Hs. simpl in Hs. subst s. simpl String.eqb. cbv iota.
    destruct (fallible.fault driver 3); reflexivity.
  - assert (s = ACTIVE) as -> by (subst s; apply active_unless_paused; exact Hp).
    simpl String.eqb. cbv iota.
    destruct (fallible.fault driver 3) as [e3|]; [reflexivity|].
    unfold fallible.GetRecentMessages.
    destruct (fallible.fault driver 4) as [e4|]; [reflexivity|].
    unfold GetRecentMessages at 1. cbv iota beta.
    destruct (llm.Call codec env (Config.DeepSeekAPIKey cfg) _) as [[llmResp|] e];
      [|reflexivity].
    simpl store.
    destruct (fallible.InsertMessage (fallible.fault driver 5) db2 _) as [db4 e4]. simpl fst.
    destruct (fallible.UpsertQuoteData (fallible.fault driver 6) db4 _ _) as [db5 e5].
    simpl fst. reflexivity.
Qed.

(** X11.  What a run of [handleMessage] sends, whatever the driver
    reports.  A run is silent when the message is a text message and
    either its identifier is stored, or the driver fails at the idempotency
    check, the upsert or the state read, or the conversation is not PAUSED
    and the driver fails at the insert of the message or the read of the
    history.  A silent run sends nothing at all, to the customer or to the
    model.  Every other run answers the sender: exactly one WhatsApp
    message goes out, to the sender, as the last thing the handler does. *)
Theorem handleMessage_replies_once
    (cfg : Config.t) (codec : Codec) (env : Env) (driver : fallible.Driver) (w : World)
    (msg : WAMessage.t) :
  let w' := fallible.handleMessage cfg codec env driver w msg in
  (fallible.silent driver w msg -> sent w' = sent w) /\
  (~ fallible.silent driver w msg ->
   exists before body,
     sent w' = sent w ++ before ++ [SendWhatsApp (WAMessage.From_ msg) body] /\
     forallb (fun e => negb (isSend e)) before = true).
Proof.
  intros w'. subst w'. unfold fallible.silent.
  destruct (textOf msg) as [text|] eqn:Ht.
  2: { split.
       - intros [[x Hx] _]. discriminate.
       - intros _. exists [], unsupportedReply.
         unfold fallible.handleMessage. rewrite Ht. split; reflexivity. }
  destruct (decide (stored (store w) (WAMessage.ID msg))) as [Hs|Hf].
  { rewrite (fallible_handleMessage_stored cfg codec env driver w msg text Ht Hs).
    split; [reflexivity|]. intros Hn. exfalso. apply Hn. split; [eauto | tauto]. }
  destruct (fallible_handleMessage_stopped cfg codec env driver w msg text Ht Hf)
    as [Hstop01 Hstop2].
  destruct (fallible.fault driver 0) as [e0|] eqn:D0.
  { rewrite Hstop01 by eauto.
    split; [reflexivity|]. intros Hn. exfalso. apply Hn. split; eauto. }
  destruct (fallible.fault driver 1) as [e1|] eqn:D1.
  { rewrite Hstop01 by eauto.
    split; [reflexivity|]. intros Hn. exfalso. apply Hn. split; eauto 6. }
  destruct (fallible.fault driver 2) as [e2|] eqn:D2.
  { rewrite Hstop2 by eauto.
    split; [reflexivity|]. intros Hn. exfalso. apply Hn. split; eauto 7. }
  assert (forall P : Prop,
            (is_Some (@None string) \/ stored (store w) (WAMessage.ID msg) \/
             is_Some (@None string) \/ is_Some (@None string) \/ P) -> P) as Hrest.
  { intros P [[x H]|[H|[[x H]|[[x H]|H]]]]; try discriminate; [contradiction | exact H]. }
  rewrite (fallible_handleMessage_new cfg codec env driver w msg text Ht Hf D0 D1 D2).
  cbv zeta.
  destruct (decide (conversations (store w) !! WAMessage.From_ msg = Some PAUSED)) as [Hp|Hp].
  { split.
    - intros [_ H]. apply Hrest in H. destruct H as [H _]. contradiction.
    - intros _. exists [], pausedReply. split; reflexivity. }
  destruct (fallible.fault driver 3) as [e3|] eqn:D3.
  { split; [reflexivity|]. intros Hn. exfalso. apply Hn. split; [eauto|].
    do 4 right. split; [exact Hp | left; eauto]. }
  destruct (fallible.fault driver 4) as [e4|] eqn:D4.
  { split; [reflexivity|]. intros Hn. exfalso. apply Hn. split; [eauto|].
    do 4 right. split; [exact Hp | right; eauto]. }
  assert (forall P : Prop,
            (is_Some (Some text) /\
             (is_Some (@None string) \/ stored (store w) (WAMessage.ID msg) \/
              is_Some (@None string) \/ is_Some (@None string) \/
              conversations (store w) !! WAMessage.From_ msg <> Some PAUSED /\
              (is_Some (@None string) \/ is_Some (@None string)))) -> P) as Hloud.
  { intros P [_ H]. apply Hrest in H. destruct H as [_ [[x H]|[x H]]]; discriminate. }
  match goal with
  | |- context [llm.Call codec env (Config.DeepSeekAPIKey cfg) ?h] =>
      destruct (Call_shape codec env (Config.DeepSeekAPIKey cfg) h) as [[err ->] | [r ->]]
  end.
  - split; [intros H; exact (Hloud _ H)|]. intros _.
    eexists [_], _. simpl. rewrite <- app_assoc. split; reflexivity.
  - destruct (String.eqb (LLMResponse.Action (llm.validated r)) "handoff");
      [|destruct (String.eqb (LLMResponse.Action (llm.validated r)) "schedule")].
    + split; [intros H; exact (Hloud _ H)|]. intros _.
      eexists [_; _], _. simpl. rewrite <- !app_assoc. split; reflexivity.
    + split; [intros H; exact (Hloud _ H)|]. intros _.
      eexists [_], _. simpl. rewrite <- app_assoc. split; reflexivity.
    + split; [intros H; exact (Hloud _ H)|]. intros _.
      eexists [_], _. simpl. rewrite <- app_assoc. split; reflexivity.
Qed.

Lemma fallible_InsertMessage_keeps (failure : error) (db : DB) (m : Message.t) (id : string) :
  stored db id -> stored (fst (fallible.InsertMessage failure db m)) id.
Proof.
  intros H. destruct failure; [exact H | apply InsertMessage_keeps; exact H].
Qed.

Lemma fallible_UpsertQuoteData_keeps
    (failure : error) (db : DB) (c : string) (j : JSON) (id : string) :
  stored db id -> stored (fst (fallible.UpsertQuoteData failure db c j)) id.
Proof.
  intros H. destruct failure; [exact H | apply UpsertQuoteData_keeps; exact H].
Qed.

(** Once the first four statements of a run have gone through, the text
    message is in the store, whatever happens to the rest of the run. *)
Lemma fallible_handleMessage_records
    (cfg : Config.t) (codec : Codec) (env : Env) (driver : fallible.Driver) (w : World)
    (msg : WAMessage.t) (text : WAText.t) :
  textOf msg = Some text ->
  (forall n, (n < 4)%nat -> fallible.fault driver n = None) ->
  stored (store (fallible.handleMessage cfg codec env driver w msg)) (WAMessage.ID msg).
Proof.
  intros Ht Hrun.
  destruct (decide (stored (store w) (WAMessage.ID msg))) as [Hs|Hf].
  { rewrite (fallible_handleMessage_stored cfg codec env driver w msg text Ht Hs). exact Hs. }
  rewrite (fallible_handleMessage_new cfg codec env driver w msg text Ht Hf
             (Hrun 0%nat ltac:(lia)) (Hrun 1%nat ltac:(lia)) (Hrun 2%nat ltac:(lia))).
  cbv zeta. rewrite (Hrun 3%nat ltac:(lia)).
  set (db1 := fst (UpsertConversation (store w) (WAMessage.From_ msg))).
  set (inbound := Message.mk (WAMessage.ID msg) (WAMessage.From_ msg) "user"
                             (WAText.Body text)).
  set (db2 := mkDB (conversations db1) (messages db1 ++ [inbound]) (quote_data db1)).
  assert (stored db2 (WAMessage.ID msg)) as H2.
  { unfold stored, db2. simpl. rewrite Exists_app. right. constructor 1. reflexivity. }
  destruct (decide (conversations (store w) !! WAMessage.From_ msg = Some PAUSED));
    [exact H2|].
  destruct (fallible.fault driver 4); [exact H2|].
  destruct (llm.Call codec env (Config.DeepSeekAPIKey cfg) _) as [[llmResp|] e];
    [|exact H2].
  assert (stored
            (fst (fallible.UpsertQuoteData (fallible.fault driver 6)
                    (fst (fallible.InsertMessage (fallible.fault driver 5) db2
                            (Message.mk (assistantMsgID (WAMessage.From_ msg) (UnixNano env))
                                        (WAMessage.From_ msg) "assistant"
                                        (LLMResponse.ReplyToUser llmResp))))
                    (WAMessage.From_ msg)
                    (ExtractedData.Marshal (LLMResponse.ExtractedData llmResp))))
            (WAMessage.ID msg)) as H5
    by (apply fallible_UpsertQuoteData_keeps, fallible_InsertMessage_keeps; exact H2).
  destruct (String.eqb (LLMResponse.Action llmResp) "handoff");
    [|destruct (String.eqb (LLMResponse.Action llmResp) "schedule")]; exact H5.
Qed.

(** X14.  Redelivery, whatever the driver reports.  Once the first four
    statements of a run have gone through (the idempotency check, the
    upsert, the state read and the insert of the message), the text message
    is in the store and handling it again changes nothing, whatever the
    environment and the driver then answer: no second row, no call of the
    model, nothing sent; this holds also when the first run was stopped
    after the insert and sent no reply.  A run the driver stops at the
    idempotency check or at the upsert leaves the world as it was, so the
    redelivery of its message is handled as a first delivery. *)
Theorem redelivery_is_idempotent
    (cfg : Config.t) (codec : Codec) (env env' : Env) (driver driver' : fallible.Driver)
    (w : World) (msg : WAMessage.t) (text : WAText.t) :
  textOf msg = Some text ->
  let first := fallible.handleMessage cfg codec env driver w msg in
  ((forall n, (n < 4)%nat -> fallible.fault driver n = None) ->
   stored (store first) (WAMessage.ID msg) /\
   fallible.handleMessage cfg codec env' driver' first msg = first) /\
  (is_Some (fallible.fault driver 0) \/ is_Some (fallible.fault driver 1) -> first = w).
Proof.
  intros Ht first. subst first. split.
  - intros Hrun.
    pose proof (fallible_handleMessage_records cfg codec env driver w msg text Ht Hrun) as Hs.
    split; [exact Hs|].
    apply (fallible_handleMessage_stored cfg codec env' driver' _ msg text Ht Hs).
  - intros Hstop.
    destruct (decide (stored (store w) (WAMessage.ID msg))) as [Hs|Hf].
    + apply (fallible_handleMessage_stored cfg codec env driver w msg text Ht Hs).
    + apply (fallible_handleMessage_stopped cfg codec env driver w msg text Ht Hf). exact Hstop.
Qed.

(** The couch message is stored, then the driver finds the database locked
    at the read of the history: nothing is sent.  The redelivery, with the
    driver working again, changes nothing: the customer gets no answer. *)
Lemma redelivery_is_idempotent_witness :
  sent (fallible.handleMessage fixtures.testConfig fixtures.replyCodec fixtures.backendUp
                               (fixtures.lockedAt 4) fixtures.emptyWorld
                               fixtures.couchMessage) = [] /\
  stored (store (fallible.handleMessage fixtures.testConfig fixtures.replyCodec
                                        fixtures.backendUp (fixtures.lockedAt 4)
                                        fixtures.emptyWorld fixtures.couchMessage))
         "wamid.test001" /\
  fallible.handleMessage fixtures.testConfig fixtures.replyCodec fixtures.backendUp
    fallible.working
    (fallible.handleMessage fixtures.testConfig fixtures.replyCodec fixtures.backendUp
                            (fixtures.lockedAt 4) fixtures.emptyWorld fixtures.couchMessage)
    fixtures.couchMessage
  = fallible.handleMessage fixtures.testConfig fixtures.replyCodec fixtures.backendUp
                           (fixtures.lockedAt 4) fixtures.emptyWorld fixtures.couchMessage.
Proof.
  split; [vm_compute; reflexivity|].
  apply (redelivery_is_idempotent
           fixtures.testConfig fixtures.replyCodec fixtures.backendUp fixtures.backendUp
           (fixtures.lockedAt 4) fallible.working fixtures.emptyWorld fixtures.couchMessage
           (WAText.mk "I need a couch removed.")).
  - reflexivity.
  - intros n Hn. destruct n as [|[|[|[|n]]]]; try reflexivity. lia.
Defined.






(** ** Witnesses of the lemmas on payloads *)

Lemma processInbound_handles_each_witness :
  processInbound fixtures.testConfig payloads.codec (fun _ => fixtures.backendUp)
                 fixtures.emptyWorld payloads.twoMessagesBody
  = handleEach fixtures.testConfig payloads.codec (fun _ => fixtures.backendUp)
               fixtures.emptyWorld [fixtures.couchMessage; deliveries.stairsMessage].
Proof.
  apply (processInbound_handles_each
           fixtures.testConfig payloads.codec (fun _ => fixtures.backendUp)
           fixtures.emptyWorld payloads.twoMessagesBody payloads.twoMessages
           (WAEntry.mk [WAChange.mk (WAValue.mk [fixtures.couchMessage;
                                                 deliveries.stairsMessage])]) []
           (WAChange.mk (WAValue.mk [fixtures.couchMessage; deliveries.stairsMessage])) []
           fixtures.couchMessage [deliveries.stairsMessage]); reflexivity.
Defined.

Lemma processInbound_no_message_witness :
  processInbound fixtures.testConfig payloads.codec (fun _ => fixtures.backendUp)
                 deliveries.served payloads.receiptBody = deliveries.served.
Proof.
  apply (processInbound_no_message
           fixtures.testConfig payloads.codec (fun _ => fixtures.backendUp)
           deliveries.served payloads.receiptBody payloads.receipt); reflexivity.
Defined.

(** ** The webhook endpoint, all requests *)

(** X16.  POST /whatsapp/webhook answers 200 exactly when the body can be
    read and its signature verifies, and then the body goes to
    [processInbound]; an unreadable body is answered 400, any other request
    403, and in both cases nothing is processed: the world is unchanged. *)
Theorem HandleWhatsAppMessage_contract
    (cfg : Config.t) (codec : Codec) (envs : nat -> Env) (w : World) (r : Request) :
  let resp := fst (HandleWhatsAppMessage cfg codec envs w r) in
  let w' := snd (HandleWhatsAppMessage cfg codec envs w r) in
  let verified rawBody :=
    ReadAll r = Some rawBody /\
    verifyMetaSignature (Config.MetaAppSecret cfg) rawBody
                        (Header_Get r "X-Hub-Signature-256") = true in
  (Code resp = Some 200 <-> exists rawBody, verified rawBody) /\
  (forall rawBody, verified rawBody -> w' = processInbound cfg codec envs w rawBody) /\
  (ReadAll r = None -> Code resp = Some 400) /\
  (Code resp = Some 200 \/ (Code resp = Some 400 \/ Code resp = Some 403) /\ w' = w) /\
  (ReqHeader r !! "X-Hub-Signature-256" = None -> Code resp <> Some 200).
Proof.
  intros resp w' verified. subst resp w' verified. unfold HandleWhatsAppMessage.
  destruct (ReadAll r) as [rawBody|] eqn:Hb.
  - destruct (verifyMetaSignature (Config.MetaAppSecret cfg) rawBody
                                  (Header_Get r "X-Hub-Signature-256")) eqn:Hv; simpl.
    + repeat split; auto.
      * intros _. exists rawBody. auto.
      * intros raw [E _]. injection E as <-. reflexivity.
      * discriminate.
      * intros Hh. unfold Header_Get in Hv. rewrite Hh in Hv. simpl in Hv.
        discriminate.
    + repeat split; auto; try discriminate.
      * intros (raw & E & Hv'). injection E as <-. congruence.
      * intros raw [E Hv']. injection E as <-. congruence.
  - simpl. repeat split; auto; try discriminate.
    + intros (raw & E & _). discriminate.
    + intros raw [E _]. discriminate.
Qed.

(** ** The escalation callback, all requests *)

(** X17.  Pressing the button again.  After a verified take-over of a
    conversation that exists, with the state read and the pause gone
    through, the conversation is PAUSED; the same verified callback, sent
    again, is answered 200 and changes nothing more, whatever the driver
    then reports, and its answer is the "already paused" note when the
    state can be read. *)
Theorem take_over_again_changes_nothing
    (cfg : Config.t) (codec : Codec) (now now' : Z) (driver driver' : fallible.Driver)
    (db : DB) (r r' : Request)
    (rawBody rawBody' : string) (formVals : gmap string (list string))
    (slackPayload : SlackInteractivePayload.t) (action : SlackAction.t)
    (rest : list SlackAction.t) (s : Status) :
  ReadAll r = Some rawBody ->
  verifySlackSignature now (Config.SlackSigningSecret cfg)
                       (Header_Get r "X-Slack-Request-Timestamp") rawBody
                       (Header_Get r "X-Slack-Signature") = true ->
  ParseQuery codec rawBody = Some formVals ->
  ReadAll r' = Some rawBody' ->
  verifySlackSignature now' (Config.SlackSigningSecret cfg)
                       (Header_Get r' "X-Slack-Request-Timestamp") rawBody'
                       (Header_Get r' "X-Slack-Signature") = true ->
  ParseQuery codec rawBody' = Some formVals ->
  Values_Get formVals "payload" <> "" ->
  UnmarshalSlackPayload codec (Values_Get formVals "payload") = Some slackPayload ->
  SlackInteractivePayload.Actions slackPayload = action :: rest ->
  SlackAction.ActionID action = "take_over_chat" ->
  conversations db !! SlackAction.Value action = Some s ->
  fallible.fault driver 0 = None ->
  fallible.fault driver 1 = None ->
  let db1 := snd (fallible.HandleSlackInteractive cfg codec now driver db r) in
  let again := fallible.HandleSlackInteractive cfg codec now' driver' db1 r' in
  conversations db1 !! SlackAction.Value action = Some PAUSED /\
  snd again = db1 /\
  Code (fst again) = Some 200 /\
  Header (fst again) !! "Content-Type" = Some "application/json" /\
  Written (fst again)
    = [Json [("replace_original", JBool true);
             ("text", JString (match fallible.fault driver' 0 with
                               | None => "ℹ️ Chat was already paused."
                               | Some _ => "⚠️ Conversation not found."
                               end))]].
Proof.
  intros Hb Hs Hf Hb' Hs' Hf' Hp Hj Ha Hid Hc D0 D1 db1 again.
  pose proof (take_over_by_cases cfg codec now driver db r rawBody formVals
                slackPayload action rest Hb Hs Hf Hp Hj Ha Hid) as E.
  cbv zeta in E. rewrite D0, Hc in E.
  assert (conversations db1 !! SlackAction.Value action = Some PAUSED) as Hpaused.
  { unfold db1. rewrite E. destruct s.
    - rewrite D1. simpl. rewrite lookup_alter_eq, Hc. reflexivity.
    - exact Hc. }
  split; [exact Hpaused|].
  pose proof (take_over_by_cases cfg codec now' driver' db1 r' rawBody' formVals
                slackPayload action rest Hb' Hs' Hf' Hp Hj Ha Hid) as E'.
  cbv zeta in E'. rewrite Hpaused in E'. subst again. rewrite E'.
  destruct (fallible.fault driver' 0); repeat split.
Qed.

Lemma take_over_again_changes_nothing_witness :
  conversations (snd (fallible.HandleSlackInteractive
                        fixtures.testConfig callbacks.slackCodec 1700000000 fallible.working
                        fixtures.activeStore callbacks.takeOverRequest))
    !! fixtures.phone = Some PAUSED /\
  snd (fallible.HandleSlackInteractive
         fixtures.testConfig callbacks.slackCodec 1700000100 fallible.working
         (snd (fallible.HandleSlackInteractive
                 fixtures.testConfig callbacks.slackCodec 1700000000 fallible.working
                 fixtures.activeStore callbacks.takeOverRequest))
         callbacks.takeOverRequest)
    = snd (fallible.HandleSlackInteractive
             fixtures.testConfig callbacks.slackCodec 1700000000 fallible.working
             fixtures.activeStore callbacks.takeOverRequest) /\
  Code (fst (fallible.HandleSlackInteractive
               fixtures.testConfig callbacks.slackCodec 1700000100 fallible.working
               (snd (fallible.HandleSlackInteractive
                       fixtures.testConfig callbacks.slackCodec 1700000000 fallible.working
                       fixtures.activeStore callbacks.takeOverRequest))
               callbacks.takeOverRequest))
    = Some 200 /\
  Header (fst (fallible.HandleSlackInteractive
                 fixtures.testConfig callbacks.slackCodec 1700000100 fallible.working
                 (snd (fallible.HandleSlackInteractive
                         fixtures.testConfig callbacks.slackCodec 1700000000 fallible.working
                         fixtures.activeStore callbacks.takeOverRequest))
                 callbacks.takeOverRequest))
    !! "Content-Type" = Some "application/json" /\
  Written (fst (fallible.HandleSlackInteractive
                  fixtures.testConfig callbacks.slackCodec 1700000100 fallible.working
                  (snd (fallible.HandleSlackInteractive
                          fixtures.testConfig callbacks.slackCodec 1700000000 fallible.working
                          fixtures.activeStore callbacks.takeOverRequest))
                  callbacks.takeOverRequest))
    = [Json [("replace_original", JBool true);
             ("text", JString "ℹ️ Chat was already paused.")]].
Proof.
  apply (take_over_again_changes_nothing
           fixtures.testConfig callbacks.slackCodec 1700000000 1700000100
           fallible.working fallible.working
           fixtures.activeStore callbacks.takeOverRequest callbacks.takeOverRequest
           callbacks.takeOverBody callbacks.takeOverBody
           {[ "payload" := [callbacks.takeOverJSON] ]} callbacks.takeOver
           (SlackAction.mk "take_over_chat" fixtures.phone) [] ACTIVE).
  - reflexivity.
  - vm_compute. reflexivity.
  - reflexivity.
  - reflexivity.
  - vm_compute. reflexivity.
  - reflexivity.
  - vm_compute. discriminate.
  - reflexivity.
  - reflexivity.
  - reflexivity.
  - vm_compute. reflexivity.
  - reflexivity.
  - reflexivity.
Defined.

(** Every path of the callback handler: the store is returned as it was,
    or a verified request has paused one ACTIVE conversation. *)
Lemma HandleSlackInteractive_paths
    (cfg : Config.t) (codec : Codec) (now : Z) (db : DB) (r : Request) :
  let resp := fst (HandleSlackInteractive cfg codec now db r) in
  let db' := snd (HandleSlackInteractive cfg codec now db r) in
  (db' = db /\
   forall rawBody,
     ReadAll r = Some rawBody ->
     verifySlackSignature now (Config.SlackSigningSecret cfg)
                          (Header_Get r "X-Slack-Request-Timestamp") rawBody
                          (Header_Get r "X-Slack-Signature") = false ->
     Code resp = Some 403) \/
  (exists rawBody phone,
     ReadAll r = Some rawBody /\
     verifySlackSignature now (Config.SlackSigningSecret cfg)
                          (Header_Get r "X-Slack-Request-Timestamp") rawBody
                          (Header_Get r "X-Slack-Signature") = true /\
     conversations db !! phone = Some ACTIVE /\
     Code resp = Some 200 /\
     db' = fst (PauseConversation db phone)).
Proof.
  intros resp db'. subst resp db'. unfold HandleSlackInteractive.
  destruct (ReadAll r) as [rawBody|] eqn:Hb;
    [|simpl; left; split; [reflexivity | discriminate]].
  destruct (verifySlackSignature now (Config.SlackSigningSecret cfg)
              (Header_Get r "X-Slack-Request-Timestamp") rawBody
              (Header_Get r "X-Slack-Signature")) eqn:Hv; simpl negb; cbv iota;
    [|simpl; left; split; reflexivity].
  assert (forall rawBody0 : string,
            Some rawBody = Some rawBody0 ->
            verifySlackSignature now (Config.SlackSigningSecret cfg)
              (Header_Get r "X-Slack-Request-Timestamp") rawBody0
              (Header_Get r "X-Slack-Signature") = false ->
            forall P : Prop, P) as Hno
    by (intros raw E Hv'; injection E as <-; congruence).
  destruct (ParseQuery codec rawBody) as [formVals|];
    [|simpl; left; split; [reflexivity | intros raw E Hv'; exact (Hno raw E Hv' _)]].
  destruct (String.eqb (Values_Get formVals "payload") "");
    [simpl; left; split; [reflexivity | intros raw E Hv'; exact (Hno raw E Hv' _)]|].
  destruct (UnmarshalSlackPayload codec (Values_Get formVals "payload")) as [slackPayload|];
    [|simpl; left; split; [reflexivity | intros raw E Hv'; exact (Hno raw E Hv' _)]].
  destruct (SlackInteractivePayload.Actions slackPayload) as [|action rest];
    [simpl; left; split; [reflexivity | intros raw E Hv'; exact (Hno raw E Hv' _)]|].
  destruct (String.eqb (SlackAction.ActionID action) "take_over_chat"); simpl negb; cbv iota;
    [|simpl; left; split; [reflexivity | intros raw E Hv'; exact (Hno raw E Hv' _)]].
  unfold GetConversationStatus.
  destruct (conversations db !! SlackAction.Value action) as [[|]|] eqn:Hc; simpl.
  - right. exists rawBody, (SlackAction.Value action). auto.
  - left. split; [reflexivity | intros raw E Hv'; exact (Hno raw E Hv' _)].
  - left. split; [reflexivity | intros raw E Hv'; exact (Hno raw E Hv' _)].
Qed.

(** X18.  Whatever request reaches POST /slack/interactive: messages and
    extracted data are untouched, no conversation is created or removed,
    the state of a conversation changes at most from ACTIVE to PAUSED, the
    constraints of the schema are kept, and a request whose signature does
    not verify is answered 403 and changes nothing. *)
Theorem slack_callback_frame
    (cfg : Config.t) (codec : Codec) (now : Z) (db : DB) (r : Request) :
  let resp := fst (HandleSlackInteractive cfg codec now db r) in
  let db' := snd (HandleSlackInteractive cfg codec now db r) in
  messages db' = messages db /\
  quote_data db' = quote_data db /\
  (forall q, conversations db' !! q = conversations db !! q \/
             (conversations db !! q = Some ACTIVE /\ conversations db' !! q = Some PAUSED)) /\
  (wellformed db -> wellformed db') /\
  (forall rawBody,
     ReadAll r = Some rawBody ->
     verifySlackSignature now (Config.SlackSigningSecret cfg)
                          (Header_Get r "X-Slack-Request-Timestamp") rawBody
                          (Header_Get r "X-Slack-Signature") = false ->
     Code resp = Some 403 /\ db' = db).
Proof.
  intros resp db'.
  destruct (HandleSlackInteractive_paths cfg codec now db r)
    as [[E H403] | (rawBody & phone & Hb & Hv & Hc & H200 & E)];
    fold db' in E; rewrite E.
  - split; [reflexivity|]. split; [reflexivity|].
    split; [intros q; left; reflexivity|]. split; [auto|].
    intros raw Hb Hv. split; [|reflexivity]. apply (H403 raw Hb Hv).
  - split; [reflexivity|]. split; [reflexivity|]. split; [|split].
    + intros q. simpl. destruct (decide (phone = q)) as [<-|Hne].
      * right. rewrite lookup_alter_eq, Hc. auto.
      * left. apply lookup_alter_ne. exact Hne.
    + apply (exec_wellformed db (OpPauseConversation phone)).
    + intros raw Hb' Hv'. rewrite Hb in Hb'. injection Hb' as <-. congruence.
Qed.


(** ** Configuration and the verification handshake *)

Lemma firstMissing_Some (req : gmap string string) (order : list string) (key : string) :
  config.firstMissing req order = Some key -> key ∈ order /\ req !! key = Some "".
Proof.
  induction order as [|k rest IH]; simpl; [discriminate|].
  destruct (req !! k) as [val|] eqn:Hk.
  - destruct (String.eqb val "") eqn:Hv.
    + intros [= <-]. apply String.eqb_eq in Hv. subst val.
      split; [apply list_elem_of_here | exact Hk].
    + intros H. destruct (IH H) as [Hin Hreq]. split; [apply list_elem_of_further|]; assumption.
  - intros H. destruct (IH H) as [Hin Hreq]. split; [apply list_elem_of_further|]; assumption.
Qed.

Lemma firstMissing_None (req : gmap string string) (order : list string) :
  config.firstMissing req order = None ->
  forall key, key ∈ order -> req !! key <> Some "".
Proof.
  induction order as [|k rest IH]; simpl; intros H key Hin.
  - apply elem_of_nil in Hin. destruct Hin.
  - apply elem_of_cons in Hin. destruct (req !! k) as [val|] eqn:Hk.
    + destruct (String.eqb val "") eqn:Hv; [discriminate|].
      destruct Hin as [->|Hin]; [|exact (IH H key Hin)].
      rewrite Hk. intros [= ->]. discriminate.
    + destruct Hin as [->|Hin]; [|exact (IH H key Hin)].
      rewrite Hk. discriminate.
Qed.

(** The map [required] holds the value read for each of the seven names
    and nothing else. *)
Lemma required_lookup (environ : gmap string string) (dbPath key val : string) :
  config.required
    (Config.mk dbPath
       (config.Getenv environ "META_VERIFY_TOKEN")
       (config.Getenv environ "META_APP_SECRET")
       (config.Getenv environ "META_ACCESS_TOKEN")
       (config.Getenv environ "META_PHONE_NUMBER_ID")
       (config.Getenv environ "DEEPSEEK_API_KEY")
       (config.Getenv environ "SLACK_WEBHOOK_URL")
       (config.Getenv environ "SLACK_SIGNING_SECRET")) !! key = Some val <->
  key ∈ config.requiredKeys /\ val = config.Getenv environ key.
Proof.
  unfold config.required. rewrite <- elem_of_list_to_map.
  - unfold config.requiredKeys. simpl Config.MetaVerifyToken. simpl Config.MetaAppSecret.
    simpl Config.MetaAccessToken. simpl Config.MetaPhoneNumberID.
    simpl Config.DeepSeekAPIKey. simpl Config.SlackWebhookURL.
    simpl Config.SlackSigningSecret.
    rewrite !elem_of_cons, !elem_of_nil. split.
    + intros H. repeat (destruct H as [[= -> ->]|H]; [split; [tauto | reflexivity]|]).
      destruct H.
    + intros [H ->]. repeat (destruct H as [->|H]; [tauto|]). destruct H.
  - simpl. apply (bool_decide_unpack _). vm_compute. reflexivity.
Qed.

(** The two outcomes of [Load]. *)
Lemma Load_result (order : list string) (environ : gmap string string) :
  (forall key, key ∈ config.requiredKeys -> key ∈ order) ->
  (exists key, key ∈ config.requiredKeys /\ config.Getenv environ key = "" /\
     config.Load order environ =
       (None, Some ("missing required environment variable: " +:+ key))) \/
  ((forall key, key ∈ config.requiredKeys -> config.Getenv environ key <> "") /\
   config.Load order environ =
     (Some (Config.mk
              (if String.eqb (config.Getenv environ "DB_PATH") ""
               then "/data/db.sqlite" else config.Getenv environ "DB_PATH")
              (config.Getenv environ "META_VERIFY_TOKEN")
              (config.Getenv environ "META_APP_SECRET")
              (config.Getenv environ "META_ACCESS_TOKEN")
              (config.Getenv environ "META_PHONE_NUMBER_ID")
              (config.Getenv environ "DEEPSEEK_API_KEY")
              (config.Getenv environ "SLACK_WEBHOOK_URL")
              (config.Getenv environ "SLACK_SIGNING_SECRET")), None)).
Proof.
  intros Hall. unfold config.Load. cbv zeta.
  destruct (config.firstMissing _ order) as [key|] eqn:Hf.
  - left. exists key. apply firstMissing_Some in Hf. destruct Hf as [_ Hreq].
    apply required_lookup in Hreq. destruct Hreq as [Hin Hval].
    split; [exact Hin|]. split; [symmetry; exact Hval | reflexivity].
  - right. split; [|reflexivity].
    intros key Hin Hempty.
    apply (firstMissing_None _ _ Hf key (Hall key Hin)).
    apply required_lookup. split; [exact Hin | symmetry; exact Hempty].
Qed.

(** X19.  [Load] fails fast.  The loop over [required] visits every
    key, in whatever order.  Then a configuration is returned exactly when
    each of the seven required variables is set to a non-empty value, with
    a nil error; it holds the values of the environment, and the database
    path is DB_PATH or, when that is unset or empty, /data/db.sqlite.
    Otherwise the configuration is nil and the error names a required
    variable that is indeed missing. *)
Theorem Load_fails_fast (order : list string) (environ : gmap string string)
    (Hall : forall key, key ∈ config.requiredKeys -> key ∈ order) :
  (is_Some (fst (config.Load order environ)) <->
   forall key, key ∈ config.requiredKeys -> config.Getenv environ key <> "") /\
  (is_Some (fst (config.Load order environ)) <-> snd (config.Load order environ) = None) /\
  (forall c, fst (config.Load order environ) = Some c ->
     Config.MetaVerifyToken c = config.Getenv environ "META_VERIFY_TOKEN" /\
     Config.MetaAppSecret c = config.Getenv environ "META_APP_SECRET" /\
     Config.MetaAccessToken c = config.Getenv environ "META_ACCESS_TOKEN" /\
     Config.MetaPhoneNumberID c = config.Getenv environ "META_PHONE_NUMBER_ID" /\
     Config.DeepSeekAPIKey c = config.Getenv environ "DEEPSEEK_API_KEY" /\
     Config.SlackWebhookURL c = config.Getenv environ "SLACK_WEBHOOK_URL" /\
     Config.SlackSigningSecret c = config.Getenv environ "SLACK_SIGNING_SECRET" /\
     Config.DBPath c <> "" /\
     (environ !! "DB_PATH" = None -> Config.DBPath c = "/data/db.sqlite") /\
     (forall path, environ !! "DB_PATH" = Some path -> path <> "" -> Config.DBPath c = path)) /\
  (forall msg, snd (config.Load order environ) = Some msg ->
     exists key, key ∈ config.requiredKeys /\ config.Getenv environ key = "" /\
                 msg = "missing required environment variable: " +:+ key).
Proof.
  destruct (Load_result order environ Hall) as [(key & Hin & Hempty & E) | [Hset E]];
    rewrite E; simpl fst; simpl snd.
  - split; [|split; [|split]].
    + split; [intros [c Hc]; discriminate | intros H; destruct (H key Hin Hempty)].
    + split; [intros [c Hc]; discriminate | discriminate].
    + intros c Hc. discriminate.
    + intros msg [= <-]. exists key. auto.
  - split; [|split; [|split]].
    + split; [intros _; exact Hset | intros _; eexists; reflexivity].
    + split; [reflexivity | intros _; eexists; reflexivity].
    + intros c [= <-]. simpl.
      repeat (split; [reflexivity|]).
      unfold config.Getenv. split; [|split].
      * destruct (environ !! "DB_PATH") as [path|]; simpl.
        -- destruct (String.eqb path "") eqn:Hp; [discriminate|].
           intros ->. discriminate.
        -- discriminate.
      * intros ->. reflexivity.
      * intros path -> Hne. simpl.
        destruct (String.eqb path "") eqn:Hp; [|reflexivity].
        apply String.eqb_eq in Hp. contradiction.
    + discriminate.
Qed.

Lemma Load_fails_fast_witness :
  is_Some (fst (config.Load config.requiredKeys
                  (list_to_map [("META_VERIFY_TOKEN", "verify-me"); ("META_APP_SECRET", "s");
                                ("META_ACCESS_TOKEN", "t"); ("META_PHONE_NUMBER_ID", "1");
                                ("DEEPSEEK_API_KEY", "k"); ("SLACK_WEBHOOK_URL", "u");
                                ("SLACK_SIGNING_SECRET", "x")]))) <->
  snd (config.Load config.requiredKeys
         (list_to_map [("META_VERIFY_TOKEN", "verify-me"); ("META_APP_SECRET", "s");
                       ("META_ACCESS_TOKEN", "t"); ("META_PHONE_NUMBER_ID", "1");
                       ("DEEPSEEK_API_KEY", "k"); ("SLACK_WEBHOOK_URL", "u");
                       ("SLACK_SIGNING_SECRET", "x")])) = None.
Proof.
  exact (proj1 (proj2 (Load_fails_fast config.requiredKeys _ (fun key H => H)))).
Defined.

(** X20.  The handshake of GET /whatsapp/webhook under a loaded
    configuration: the answer is 200 with the challenge as its body
    exactly when hub.mode is subscribe and hub.verify_token is the value of
    META_VERIFY_TOKEN, and 403 with the text forbidden otherwise.  As
    [Load] refuses an empty token, a request without hub.verify_token is
    never accepted. *)
Theorem VerifyWebhook_after_Load
    (order : list string) (environ : gmap string string) (cfg : Config.t)
    (query : gmap string (list string))
    (Hall : forall key, key ∈ config.requiredKeys -> key ∈ order)
    (Hload : fst (config.Load order environ) = Some cfg) :
  let resp := VerifyWebhook cfg query in
  (handlers.Code resp = Some 200 <->
   handlers.Values_Get query "hub.mode" = "subscribe" /\
   handlers.Values_Get query "hub.verify_token" = config.Getenv environ "META_VERIFY_TOKEN") /\
  (handlers.Code resp = Some 200 ->
   handlers.Written resp = [handlers.Text (handlers.Values_Get query "hub.challenge")]) /\
  (handlers.Code resp <> Some 200 ->
   handlers.Code resp = Some 403 /\
   handlers.Written resp = [handlers.Text ("forbidden" +:+ handlers.newline)]) /\
  (query !! "hub.verify_token" = None -> handlers.Code resp = Some 403).
Proof.
  intros resp. subst resp.
  destruct (Load_result order environ Hall) as [(key & Hin & Hempty & E) | [Hset E]];
    rewrite E in Hload; simpl in Hload; [discriminate|].
  injection Hload as <-.
  assert (config.Getenv environ "META_VERIFY_TOKEN" <> "") as Htoken.
  { apply Hset. unfold config.requiredKeys. apply list_elem_of_here. }
  unfold VerifyWebhook. cbv zeta. simpl Config.MetaVerifyToken.
  destruct (String.eqb (handlers.Values_Get query "hub.mode") "subscribe") eqn:Hm;
    [apply String.eqb_eq in Hm | apply String.eqb_neq in Hm];
    (destruct (String.eqb (handlers.Values_Get query "hub.verify_token")
                          (config.Getenv environ "META_VERIFY_TOKEN")) eqn:Ht;
     [apply String.eqb_eq in Ht | apply String.eqb_neq in Ht]); simpl.
  - split; [tauto|]. split; [reflexivity|]. split; [congruence|].
    intros Hq. exfalso. apply Htoken. rewrite <- Ht.
    unfold handlers.Values_Get. rewrite Hq. reflexivity.
  - split; [split; [discriminate | tauto]|]. split; [discriminate|]. auto.
  - split; [split; [discriminate | tauto]|]. split; [discriminate|]. auto.
  - split; [split; [discriminate | tauto]|]. split; [discriminate|]. auto.
Qed.

Lemma VerifyWebhook_after_Load_witness :
  handlers.Code
    (VerifyWebhook
       (Config.mk "/data/db.sqlite" "verify-me" "s" "t" "1" "k" "u" "x")
       (list_to_map [("hub.mode", ["subscribe"]); ("hub.challenge", ["1158201444"])])) = Some 403.
Proof.
  refine (proj2 (proj2 (proj2
    (VerifyWebhook_after_Load config.requiredKeys
       (list_to_map [("META_VERIFY_TOKEN", "verify-me"); ("META_APP_SECRET", "s");
                     ("META_ACCESS_TOKEN", "t"); ("META_PHONE_NUMBER_ID", "1");
                     ("DEEPSEEK_API_KEY", "k"); ("SLACK_WEBHOOK_URL", "u");
                     ("SLACK_SIGNING_SECRET", "x")])
       (Config.mk "/data/db.sqlite" "verify-me" "s" "t" "1" "k" "u" "x")
       (list_to_map [("hub.mode", ["subscribe"]); ("hub.challenge", ["1158201444"])])
       (fun key H => H) _))) _); vm_compute; reflexivity.
Defined.

(** ** The lock table *)

Lemma lockFor_consistent (t : locks.Table) (phone : string) :
  locks.consistent t -> locks.consistent (snd (locks.lockFor t phone)).
Proof.
  intros [Hlt Hinj]. unfold locks.lockFor. cbv zeta.
  destruct (locks.entries t !! phone) as [mu|] eqn:Hp; simpl; split; simpl.
  - intros q m Hq. apply Nat.lt_lt_succ_r. exact (Hlt q m Hq).
  - exact Hinj.
  - intros q m. destruct (decide (phone = q)) as [<-|Hne].
    + rewrite lookup_insert_eq. intros [= <-]. apply Nat.lt_succ_diag_r.
    + rewrite lookup_insert_ne by exact Hne. intros Hq.
      apply Nat.lt_lt_succ_r. exact (Hlt q m Hq).
  - intros p q m. destruct (decide (phone = p)) as [<-|Hp'];
      destruct (decide (phone = q)) as [<-|Hq'];
      rewrite ?lookup_insert_eq, ?lookup_insert_ne by assumption.
    + reflexivity.
    + intros [= <-] Hq. apply Hlt in Hq. exfalso. exact (Nat.lt_irrefl _ Hq).
    + intros Hq [= <-]. apply Hlt in Hq. exfalso. exact (Nat.lt_irrefl _ Hq).
    + apply Hinj.
Qed.

(** A mutex once kept for a phone stays. *)
Lemma lockFor_keeps (t : locks.Table) (phone q : string) (mu : nat) :
  locks.entries t !! q = Some mu ->
  locks.entries (snd (locks.lockFor t phone)) !! q = Some mu.
Proof.
  intros Hq. unfold locks.lockFor. cbv zeta.
  destruct (locks.entries t !! phone) as [m|] eqn:Hp; simpl; [exact Hq|].
  rewrite lookup_insert_ne; [exact Hq|]. intros <-. congruence.
Qed.

(** The mutex returned is the one kept for the phone afterwards. *)
Lemma lockFor_stored (t : locks.Table) (phone : string) :
  locks.entries (snd (locks.lockFor t phone)) !! phone = Some (fst (locks.lockFor t phone)).
Proof.
  unfold locks.lockFor. cbv zeta.
  destruct (locks.entries t !! phone) as [m|] eqn:Hp; simpl; [exact Hp|].
  apply lookup_insert_eq.
Qed.

(** After a sequence of calls there is a consistent table that keeps
    every mutex of the first one and every mutex returned. *)
Lemma lockEach_table (phones : list string) :
  forall t : locks.Table,
    locks.consistent t ->
    exists t' : locks.Table,
      locks.consistent t' /\
      (forall q mu, locks.entries t !! q = Some mu -> locks.entries t' !! q = Some mu) /\
      (forall i phone mu,
         phones !! i = Some phone -> locks.lockEach t phones !! i = Some mu ->
         locks.entries t' !! phone = Some mu).
Proof.
  induction phones as [|p0 rest IH]; intros t Ht.
  - exists t. split; [exact Ht|]. split; [auto|]. intros i phone mu H. discriminate.
  - destruct (IH _ (lockFor_consistent t p0 Ht)) as (t' & Ht' & Hkeep & Hret).
    exists t'. split; [exact Ht'|]. split.
    + intros q mu Hq. apply Hkeep. apply lockFor_keeps. exact Hq.
    + intros [|i] phone mu; simpl.
      * intros [= <-] [= <-]. apply Hkeep. apply lockFor_stored.
      * apply Hret.
Qed.

Lemma consistent_empty : locks.consistent locks.empty.
Proof.
  split; simpl; intros *; rewrite lookup_empty; discriminate.
Qed.

(** X21.  One mutex per phone number.  Over any sequence of calls of
    [lockFor], starting with the empty table of a new process, two calls
    return the same mutex exactly when they are for the same phone number. *)
Theorem lockFor_one_mutex_per_phone
    (phones : list string) (i j : nat) (p q : string) (m n : nat)
    (Hp : phones !! i = Some p) (Hq : phones !! j = Some q)
    (Hm : locks.lockEach locks.empty phones !! i = Some m)
    (Hn : locks.lockEach locks.empty phones !! j = Some n) :
  m = n <-> p = q.
Proof.
  destruct (lockEach_table phones locks.empty consistent_empty)
    as (t' & [_ Hinj] & _ & Hret).
  pose proof (Hret i p m Hp Hm) as Hpm.
  pose proof (Hret j q n Hq Hn) as Hqn.
  split.
  - intros <-. exact (Hinj p q m Hpm Hqn).
  - intros <-. congruence.
Qed.

Lemma lockFor_one_mutex_per_phone_witness :
  (1%nat = 1%nat <-> "14165550001" = "14165550001") /\
  (0%nat = 1%nat <-> "14165551234" = "14165550001").
Proof.
  split.
  - apply (lockFor_one_mutex_per_phone
             ["14165551234"; "14165550001"; "14165551234"; "14165550001"] 1 3);
      vm_compute; reflexivity.
  - apply (lockFor_one_mutex_per_phone
             ["14165551234"; "14165550001"; "14165551234"; "14165550001"] 0 1);
      vm_compute; reflexivity.
Defined.
